(** * HundredPrisoners: the prisoners-and-light simulation of
    [HundredPrisoners.py], embedded as Rocq functions.

    Python integers are modelled as [Z] (Rocq's [Z.div] and [Z.modulo]
    round towards minus infinity and give the remainder the sign of the
    divisor, as Python's [//] and [%] do).  The NumPy arrays [seen] and
    [visited_warden] hold the floats 0.0 and 1.0 only; they are modelled as
    lists of [Z] holding 0 and 1, so that [np.sum] is a sum of entries as in
    the source.  The two true divisions that produce the reported numbers
    ([coverage] and [d/365.0]) are taken in [Q]: the binary64 rounding of
    these two quotients is not modelled.  [np.floor(d/K)] is the floor
    division [d / K].

    The process-wide generator [np.random] is threaded explicitly: every
    function takes the current generator state and hands back the next one.
    [np.random.seed] raises [ValueError] on an integer outside 0 .. 2**32 - 1.
    Plotting ([do_plot], [show_steps]) and file output have no effect on the
    values computed and are left out, except for the evaluation of [d%K] in
    the [show_steps] test, which can raise. *)

From Stdlib Require Import ZArith QArith Lia.
From stdpp Require Import base numbers list.

Local Open Scope Z_scope.

(** ** Exceptions and partial runs *)

Inductive exception : Type :=
  | ValueError          (* raised by NumPy on an empty reduction, a negative dimension or a seed out of range *)
  | ZeroDivisionError   (* raised by [d % K] when [K = 0] *)
  | AssertionError.     (* raised by the [assert] after the loop *)

(** A run either returns, raises, or is still going when the fuel that bounds
    the number of simulated days is spent. *)
Inductive run (A : Type) : Type :=
  | Ret (a : A)
  | Raise (e : exception)
  | OutOfFuel.
Arguments Ret {A} a.
Arguments Raise {A} e.
Arguments OutOfFuel {A}.

Definition bind {A B : Type} (m : run A) (k : A -> run B) : run B :=
  match m with
  | Ret a => k a
  | Raise e => Raise e
  | OutOfFuel => OutOfFuel
  end.

Notation "'let*' x ':=' m 'in' k" := (bind m (fun x => k))
  (at level 10, x name, m at level 100, k at level 200).

(** The value of a run that returned. *)
Definition run_value {A : Type} (m : run A) : option A :=
  match m with
  | Ret a => Some a
  | _ => None
  end.

(** ** The pseudo-random generator

    [np_random_seed s] is the generator state that [np.random.seed(s)]
    installs for a seed [s] it accepts, [np_random_randint g n] is the value
    that [np.random.randint(n)]
    returns in state [g], with the state it leaves.  The only fact used about
    the generator is the contract of [randint]: a value in [0, n). *)
Class PRNG : Type := {
  gen : Type;
  np_random_seed : Z -> gen;
  np_random_randint : gen -> Z -> Z * gen;
  randint_range : forall (g : gen) (n : Z),
      0 < n -> 0 <= fst (np_random_randint g n) < n
}.

(** A generator that replays a given list of draws (reduced into range), and
    draws 0 once the list is used up.  Seeding it with [s] makes it draw
    [s] once. *)
Definition replay_randint (g : list Z) (n : Z) : Z * list Z :=
  match g with
  | [] => (0, [])
  | v :: g' => (v mod n, g')
  end.

Definition replay_randint_range (g : list Z) (n : Z)
  : 0 < n -> 0 <= fst (replay_randint g n) < n :=
  match g with
  | [] => fun Hn => conj (Z.le_refl 0) Hn
  | v :: _ => fun Hn => Z.mod_pos_bound v n Hn
  end.

#[export] Instance replay : PRNG := {|
  gen := list Z;
  np_random_seed := fun s => [s];
  np_random_randint := replay_randint;
  randint_range := replay_randint_range
|}.

(** ** NumPy operations used by the source *)

(** [np.eye(N)] *)
Definition np_eye (N : Z) : list (list Z) :=
  (fun i => (fun j => if Nat.eqb i j then 1 else 0) <$> seq 0 (Z.to_nat N))
    <$> seq 0 (Z.to_nat N).

(** [np.zeros(N)] *)
Definition np_zeros (N : Z) : list Z := replicate (Z.to_nat N) 0.

(** [np.sum] of a one-dimensional array *)
Definition np_sum (l : list Z) : Z := foldr Z.add 0 l.

(** [np.sum(m, 1)]: the row sums *)
Definition np_sum_axis1 (m : list (list Z)) : list Z := np_sum <$> m.

(** [np.sum] of a two-dimensional array: the sum of all entries *)
Definition np_sum2 (m : list (list Z)) : Z := np_sum (concat m).

(** [m.size]: the number of entries *)
Definition np_size (m : list (list Z)) : Z := Z.of_nat (length (concat m)).

(** [np.max]; NumPy raises [ValueError] on an empty array. *)
Definition np_max (l : list Z) : option Z :=
  match l with
  | [] => None
  | a :: l' => Some (foldr Z.max a l')
  end.

(** [m[i, j] = v].  The indices come from [randint] and from a remainder
    modulo [N], both in [0, N), see [day_indices_in_range]. *)
Definition set_entry (m : list (list Z)) (i j : Z) (v : Z) : list (list Z) :=
  alter (fun row => <[Z.to_nat j := v]> row) (Z.to_nat i) m.

(** [m[i, j]], 0 outside the array. *)
Definition entry (m : list (list Z)) (i j : nat) : Z :=
  default 0 (m !! i ≫= fun row => row !! j).

(** [dd/365.0] *)
Definition years (dd : Z) : Q := (inject_Z dd / 365)%Q.

(** ** do_simulation *)

Section Simulation.
Context {P : PRNG}.

Record state : Type := State {
  seen : list (list Z);
  visited_warden : list Z;
  d : Z;
  light_on : bool;
  rng : gen
}.

(** The state before the loop. *)
Definition init (N : Z) (g : gen) : state :=
  State (np_eye N) (np_zeros N) 0 false g.

(** The observer of day [d]: [int(np.mod(np.floor(d/K), N))]. *)
Definition observer (N K : Z) (d : Z) : Z := (d / K) mod N.

(** The loop test [not np.max(np.sum(seen, 1)) == (N-1)]. *)
Definition loop_test (N : Z) (s : state) : run bool :=
  match np_max (np_sum_axis1 (seen s)) with
  | None => Raise ValueError
  | Some m => Ret (negb (m =? N - 1))
  end.

(** One execution of the loop body: one simulated day. *)
Definition day (N K : Z) (s : state) : run state :=
  if K =? 0 then Raise ZeroDivisionError
  else
    let x := observer N K (d s) in
    let (with_warden, g') := np_random_randint (rng s) N in
    let visited' := <[Z.to_nat with_warden := 1]> (visited_warden s) in
    let light1 := if with_warden =? x then true else light_on s in
    let seen' :=
      if with_warden =? x then seen s
      else if light_on s then set_entry (seen s) with_warden x 1
      else seen s in
    let light2 := if d s mod K =? K - 1 then false else light1 in
    Ret (State seen' visited' (d s + 1) light2 g').

(** The [while] loop; [fuel] bounds the number of days simulated. *)
Fixpoint while_loop (N K : Z) (fuel : nat) (s : state) : run state :=
  let* go := loop_test N s in
  if go then
    match fuel with
    | O => OutOfFuel
    | S fuel' => let* s' := day N K s in while_loop N K fuel' s'
    end
  else Ret s.

Record outcome : Type := Outcome {
  res_d : Z;
  res_coverage : Q;
  res_seen : list (list Z)
}.

(** The seeds [np.random.seed] accepts: the integers from 0 to 2**32 - 1.
    On any other integer it raises [ValueError]. *)
Definition seed_accepted (s : Z) : bool := (0 <=? s) && (s <=? 4294967295).

(** Whether [if seed: np.random.seed(seed)] raises: [None] and [0] are falsy
    and [np.random.seed] is not called; any other seed must be accepted. *)
Definition check_seed (seed : option Z) : run unit :=
  match seed with
  | Some s =>
      if s =? 0 then Ret tt
      else if seed_accepted s then Ret tt else Raise ValueError
  | None => Ret tt
  end.

(** The generator state after [if seed: np.random.seed(seed)], when it does
    not raise: [None] and [0] are both falsy. *)
Definition seed_generator (seed : option Z) (g : gen) : gen :=
  match seed with
  | Some s => if s =? 0 then g else np_random_seed s
  | None => g
  end.

(** What follows the loop: the assertion and the result. *)
Definition finish (N : Z) (s : state) : run (outcome * gen) :=
  if np_sum (visited_warden s) =? N then
    let coverage :=
      (100 * inject_Z (np_sum2 (seen s)) / inject_Z (np_size (seen s)))%Q in
    Ret (Outcome (d s) coverage (seen s), rng s)
  else Raise AssertionError.

(** [do_simulation(seed, N, K)], run in the generator state [g]. *)
Definition do_simulation (g : gen) (seed : option Z) (N K : Z) (fuel : nat)
  : run (outcome * gen) :=
  let* ok := check_seed seed in
  let g1 := seed_generator seed g in
  if N <? 0 then Raise ValueError
  else let* s := while_loop N K fuel (init N g1) in finish N s.

(** ** vary_parameters *)

(** The inner loop [for t in range(NTrials)] of column [i]. *)
Fixpoint for_trials (fuel : nat) (K : Z) (i : nat) (ts : list nat)
    (trials : list (list Q)) (g : gen) : run (list (list Q) * gen) :=
  match ts with
  | [] => Ret (trials, g)
  | t :: ts' =>
      let* res := do_simulation g None 100 K fuel in
      for_trials fuel K i ts'
        (alter (fun row => <[i := years (res_d (fst res))]> row) t trials)
        (snd res)
  end.

(** The outer loop [for i, K in enumerate(Ks)]. *)
Fixpoint for_Ks (fuel : nat) (NTrials : Z) (iKs : list (nat * Z))
    (trials : list (list Q)) (g : gen) : run (list (list Q) * gen) :=
  match iKs with
  | [] => Ret (trials, g)
  | (i, K) :: iKs' =>
      let* r := for_trials fuel K i (seq 0 (Z.to_nat NTrials)) trials g in
      for_Ks fuel NTrials iKs' (fst r) (snd r)
  end.

(** [enumerate(Ks)] *)
Definition enumerate (Ks : list Z) : list (nat * Z) :=
  zip (seq 0 (length Ks)) Ks.

(** [vary_parameters(NTrials, Ks)].  The Python function returns nothing;
    the model returns the array [trials] as it stands when the function
    ends, which is the array given to [sio.savemat] after the last batch. *)
Definition vary_parameters (g : gen) (NTrials : Z) (Ks : list Z) (fuel : nat)
  : run (list (list Q) * gen) :=
  if NTrials <? 0 then Raise ValueError
  else
    let trials :=
      replicate (Z.to_nat NTrials) (replicate (length Ks) (0 : Q)) in
    for_Ks fuel NTrials (enumerate Ks) trials g.

End Simulation.

(** ** Auxiliary definitions used to state the properties *)

(** The number of entries of a row that are true (equal to 1). *)
Definition count_true (l : list Z) : Z :=
  Z.of_nat (length (filter (fun v => v = 1) l)).

(** The number of agents other than [i] that row [i] of [m] marks as seen. *)
Definition others_known (m : list (list Z)) (i : nat) : Z :=
  np_sum (default [] (m !! i)) - entry m i i.

Section Trial.
Context {P : PRNG}.

(** The state at the start of day [n] of the trial begun in [s]: the loop
    test let each of the [n] days before run, and none of them raised. *)
Fixpoint days (N K : Z) (n : nat) (s : state) : option state :=
  match n with
  | O => Some s
  | S n' =>
      match days N K n' s with
      | Some s1 =>
          match loop_test N s1 with
          | Ret true =>
              match day N K s1 with
              | Ret s2 => Some s2
              | _ => None
              end
          | _ => None
          end
      | None => None
      end
  end.

(** The generator state after [n] calls of [randint(N)], and the [n]-th
    value drawn (counting from 0). *)
Fixpoint gen_after (N : Z) (n : nat) (g : gen) : gen :=
  match n with
  | O => g
  | S n' => snd (np_random_randint (gen_after N n' g) N)
  end.

Definition draw (N : Z) (n : nat) (g : gen) : Z :=
  fst (np_random_randint (gen_after N n g) N).

(** Whether the day that starts in state [s] executes the write
    [seen[with_warden, x] = 1]. *)
Definition records (N K : Z) (s : state) : bool :=
  negb (fst (np_random_randint (rng s) N) =? observer N K (d s))
  && light_on s.

End Trial.

(** Rows whose entries are all 0 or 1. *)
Definition bits (l : list Z) : Prop := Forall (fun v => v = 0 \/ v = 1) l.

(** A square matrix of side [n] holding only 0 and 1. *)
Definition square (n : nat) (m : list (list Z)) : Prop :=
  length m = n /\ Forall (fun row => length row = n /\ bits row) m.

(** The cell [(t, i)] of a table. *)
Definition cell (T : list (list Q)) (t i : nat) : option Q :=
  T !! t ≫= fun row => row !! i.

(** The rotation period of every trial of a sweep, in the order in which the
    trials are run: [n] trials for each period of [Ks]. *)
Definition schedule (n : nat) (Ks : list Z) : list Z :=
  concat ((fun K => replicate n K) <$> Ks).

(** The trials of a sweep as the specification describes them: independent
    trials of 100 agents run one after the other, each starting in the
    generator state the one before left; the result is the list of their
    days elapsed. *)
Fixpoint run_trials `{P : PRNG} (fuel : nat) (Ks : list Z) (g : gen)
    : run (list Z * gen) :=
  match Ks with
  | [] => Ret ([], g)
  | K :: Ks' =>
      let* res := do_simulation g None 100 K fuel in
      let* r := run_trials fuel Ks' (snd res) in
      Ret (res_d (fst res) :: fst r, snd r)
  end.

(** Draws that complete a trial of 100 agents with rotation period 3: agent
    98 visits first, then in window [j] the observer [j] visits and agent 99
    sees the light. *)
Definition sweep_draws : list Z :=
  [98; 0; 99] ++ concat ((fun j => [Z.of_nat j; 99; 99]) <$> seq 1 97).

(** Draws that complete a trial of 100 agents with rotation period
    [K >= 3] in [97 K + 2] days: agent 98 visits first, then in each window
    [j] from 0 to 97 the observer [j] visits and agent 99 sees the light. *)
Definition short_trial (K : nat) : list Z :=
  [98; 0; 99] ++ replicate (K - 3) 99 ++
  concat ((fun j => [Z.of_nat j; 99] ++ replicate (K - 2) 99) <$> seq 1 96) ++
  [97; 99].

(** Draws that complete such a trial in [98 K + 2] days: agent 99 visits
    before observer 0 puts the light on, and sees the light of the
    observers 1 to 98. *)
Definition long_trial (K : nat) : list Z :=
  [99; 0] ++ replicate (K - 2) 0 ++
  concat ((fun j => [Z.of_nat j; 99] ++ replicate (K - 2) 99) <$> seq 1 97) ++
  [98; 99].

(** Draws for a sweep of two trials for each of the periods 3, 4 and 5. *)
Definition table_draws : list Z :=
  short_trial 3 ++ long_trial 3 ++ long_trial 4 ++ short_trial 4 ++
  short_trial 5 ++ long_trial 5.

(** A table of [n] rows and [w] columns. *)
Definition rect (n w : nat) (T : list (list Q)) : Prop :=
  length T = n /\ Forall (fun row => length row = w) T.


(** The frame that the [show_steps] branch of the loop saves on day [d], if
    any: the number [int(np.floor(d/K))] in the name of the file. *)
Definition frame_of_day (K : Z) (show_steps : bool) (d : Z) : option Z :=
  if (d mod K =? 0) && show_steps then Some (d / K) else None.

(** The frames saved during the first [n] days of a trial, in order. *)
Definition frames (K : Z) (show_steps : bool) (n : nat) : list Z :=
  omap (frame_of_day K show_steps) (Z.of_nat <$> seq 0 n).

(** How a run that carries the generator ends: the generator state it
    leaves, the exception it raises, or no end within the fuel. *)
Definition final_generator `{P : PRNG} {A : Type} (m : run (A * gen))
  : run gen :=
  let* r := m in Ret (snd r).

(** ** Facts about the array operations *)

Lemma np_sum_app (l1 l2 : list Z) : np_sum (l1 ++ l2) = np_sum l1 + np_sum l2.
Proof.
  induction l1 as [|a l1 IH]; simpl; [reflexivity|].
  unfold np_sum in *. simpl. rewrite IH. lia.
Qed.

Lemma np_sum_insert (l : list Z) (i : nat) (v w : Z) :
  l !! i = Some v -> np_sum (<[i := w]> l) = np_sum l - v + w.
Proof.
  revert i. induction l as [|a l IH]; intros [|i] Hi; simpl in *; try discriminate.
  - inversion Hi; subst. unfold np_sum. simpl. lia.
  - apply IH in Hi. unfold np_sum in *. simpl. rewrite Hi. lia.
Qed.

Lemma bits_sum_count (l : list Z) : bits l -> np_sum l = count_true l.
Proof.
  unfold count_true. induction 1 as [|v l Hv _ IH]; [reflexivity|].
  rewrite filter_cons. unfold np_sum in *. simpl. rewrite IH.
  destruct (decide (v = 1)); simpl; lia.
Qed.

Lemma count_true_bounds (l : list Z) : 0 <= count_true l <= Z.of_nat (length l).
Proof.
  unfold count_true. pose proof (length_filter (fun v => v = 1) l). lia.
Qed.

Lemma bits_insert (l : list Z) (i : nat) : bits l -> bits (<[i := 1]> l).
Proof.
  unfold bits. intros H. apply Forall_insert; [exact H | right; reflexivity].
Qed.

Lemma bits_lookup (l : list Z) (i : nat) (v : Z) :
  bits l -> l !! i = Some v -> v = 0 \/ v = 1.
Proof.
  unfold bits. intros H Hi. rewrite Forall_lookup in H. exact (H i v Hi).
Qed.

Lemma square_lookup (n : nat) (m : list (list Z)) (i : nat) (row : list Z) :
  square n m -> m !! i = Some row -> length row = n /\ bits row.
Proof.
  intros [_ H] Hi. rewrite Forall_lookup in H. exact (H i row Hi).
Qed.

Lemma square_set_entry (n : nat) (m : list (list Z)) (i j : Z) :
  square n m -> square n (set_entry m i j 1).
Proof.
  intros [Hl H]. unfold set_entry. split.
  - rewrite length_alter. exact Hl.
  - apply Forall_alter; [exact H|].
    intros row _ [Hr Hb]. split; [rewrite length_insert; exact Hr|].
    apply bits_insert; exact Hb.
Qed.

Lemma np_eye_lookup (N : Z) (i : nat) :
  (i < Z.to_nat N)%nat ->
  np_eye N !! i =
    Some ((fun j => if Nat.eqb i j then 1 else 0) <$> seq 0 (Z.to_nat N)).
Proof.
  intros Hi. unfold np_eye. rewrite list_lookup_fmap.
  rewrite lookup_seq_lt by exact Hi. reflexivity.
Qed.

Lemma np_eye_entry (N : Z) (i j : nat) :
  (i < Z.to_nat N)%nat -> (j < Z.to_nat N)%nat ->
  entry (np_eye N) i j = if Nat.eqb i j then 1 else 0.
Proof.
  intros Hi Hj. unfold entry. rewrite np_eye_lookup by exact Hi. simpl.
  rewrite list_lookup_fmap, lookup_seq_lt by exact Hj. reflexivity.
Qed.

Lemma square_np_eye (N : Z) : square (Z.to_nat N) (np_eye N).
Proof.
  unfold square, np_eye. split.
  - rewrite length_fmap, length_seq. reflexivity.
  - rewrite Forall_fmap. apply Forall_forall. intros i _. simpl. split.
    + rewrite length_fmap, length_seq. reflexivity.
    + unfold bits. rewrite Forall_fmap. apply Forall_forall. intros j _. simpl.
      destruct (Nat.eqb i j); [right | left]; reflexivity.
Qed.

(** The sum of row [i] of the identity: only column [i] contributes. *)
Lemma np_sum_indicator (i a n : nat) :
  np_sum ((fun j => if Nat.eqb i j then 1 else 0) <$> seq a n) =
  if decide (a <= i < a + n)%nat then 1 else 0.
Proof.
  revert a. induction n as [|n IH]; intros a; simpl.
  - destruct (decide _); [lia | reflexivity].
  - unfold np_sum in *. simpl. rewrite IH.
    destruct (Nat.eqb_spec i a); repeat destruct (decide _); lia.
Qed.

Lemma np_eye_row_sums (N : Z) :
  np_sum_axis1 (np_eye N) = replicate (Z.to_nat N) 1.
Proof.
  apply list_eq. intros i. unfold np_sum_axis1.
  destruct (decide (i < Z.to_nat N)%nat) as [Hi|Hi].
  - rewrite list_lookup_fmap, np_eye_lookup by exact Hi. simpl.
    rewrite np_sum_indicator, lookup_replicate_2 by exact Hi.
    destruct (decide _); [reflexivity | lia].
  - rewrite (lookup_ge_None_2 (replicate _ _)) by (rewrite length_replicate; lia).
    apply lookup_ge_None_2. unfold np_eye.
    rewrite !length_fmap, length_seq. lia.
Qed.

Lemma np_max_replicate (n : nat) (v : Z) : np_max (replicate (S n) v) = Some v.
Proof.
  simpl. f_equal. induction n as [|n IH]; simpl; [reflexivity|].
  rewrite IH. lia.
Qed.

Lemma np_max_spec (l : list Z) (m : Z) :
  np_max l = Some m -> Forall (fun v => v <= m) l /\ m ∈ l.
Proof.
  destruct l as [|a l]; simpl; [discriminate|]. intros H. inversion H as [Hm]. clear H.
  assert (Hge : a <= foldr Z.max a l /\ Forall (fun v => v <= foldr Z.max a l) l
                /\ (foldr Z.max a l = a \/ foldr Z.max a l ∈ l)).
  { clear Hm. induction l as [|b l IH]; simpl.
    - split; [lia|]. split; [constructor | left; reflexivity].
    - destruct IH as (IH1 & IH2 & IH3). split; [lia|]. split.
      + constructor; [lia|]. eapply Forall_impl; [exact IH2|]. simpl. intros; lia.
      + destruct (Z.max_spec b (foldr Z.max a l)) as [[_ ->]|[_ ->]].
        * destruct IH3 as [->|IH3]; [left; reflexivity | right; right; exact IH3].
        * right. left. }
  destruct Hge as (H1 & H2 & H3). split.
  - constructor; assumption.
  - destruct H3 as [->|H3]; [left | right; exact H3].
Qed.

(** The stopping test of the initial state, for a population of at least one. *)
Lemma np_max_eye (N : Z) : 1 <= N -> np_max (np_sum_axis1 (np_eye N)) = Some 1.
Proof.
  intros HN. rewrite np_eye_row_sums.
  destruct (Z.to_nat N) as [|n] eqn:E; [lia|]. apply np_max_replicate.
Qed.

Lemma entry_set_entry_ne (m : list (list Z)) (i j v : Z) (a b : nat) :
  a <> Z.to_nat i \/ b <> Z.to_nat j ->
  entry (set_entry m i j v) a b = entry m a b.
Proof.
  intros Hne. unfold entry, set_entry.
  destruct (decide (a = Z.to_nat i)) as [->|Ha].
  - rewrite list_lookup_alter_eq. destruct (m !! Z.to_nat i) as [row|]; simpl; [|reflexivity].
    rewrite list_lookup_insert_ne; [reflexivity|]. destruct Hne; congruence.
  - rewrite list_lookup_alter_ne by congruence. reflexivity.
Qed.

Lemma entry_set_entry_eq (m : list (list Z)) (i j v : Z) :
  entry (set_entry m i j v) (Z.to_nat i) (Z.to_nat j) = v \/
  entry (set_entry m i j v) (Z.to_nat i) (Z.to_nat j) =
    entry m (Z.to_nat i) (Z.to_nat j).
Proof.
  unfold entry, set_entry. rewrite list_lookup_alter_eq.
  destruct (m !! Z.to_nat i) as [row|]; simpl; [|right; reflexivity].
  destruct (decide (Z.to_nat j < length row)%nat) as [Hj|Hj].
  - left. rewrite list_lookup_insert_eq by exact Hj. reflexivity.
  - right. rewrite list_insert_ge by lia. reflexivity.
Qed.

(** Writing a 1 never clears an entry. *)
Lemma entry_set_entry_mono (m : list (list Z)) (i j : Z) (a b : nat) :
  entry m a b = 1 -> entry (set_entry m i j 1) a b = 1.
Proof.
  intros H.
  destruct (decide (a = Z.to_nat i)) as [->|Ha];
    [destruct (decide (b = Z.to_nat j)) as [->|Hb]|].
  - destruct (entry_set_entry_eq m i j 1) as [E|E]; rewrite E; [reflexivity | exact H].
  - rewrite entry_set_entry_ne by (right; exact Hb). exact H.
  - rewrite entry_set_entry_ne by (left; exact Ha). exact H.
Qed.

(** An entry that differs after a write is the one written. *)
Lemma entry_set_entry_changed (m : list (list Z)) (i j v : Z) (a b : nat) :
  entry (set_entry m i j v) a b <> entry m a b ->
  a = Z.to_nat i /\ b = Z.to_nat j.
Proof.
  intros H.
  destruct (decide (a = Z.to_nat i)) as [Ha|Ha];
    [destruct (decide (b = Z.to_nat j)) as [Hb|Hb]|].
  - split; assumption.
  - exfalso. apply H. apply entry_set_entry_ne. right; exact Hb.
  - exfalso. apply H. apply entry_set_entry_ne. left; exact Ha.
Qed.

(** ** The loop body *)

Section DayFacts.
Context {P : PRNG}.

(** What a day that does not raise leaves behind. *)
Lemma day_Ret (N K : Z) (s s' : state) :
  day N K s = Ret s' ->
  let w := fst (np_random_randint (rng s) N) in
  let x := observer N K (d s) in
  K <> 0 /\
  rng s' = snd (np_random_randint (rng s) N) /\
  d s' = d s + 1 /\
  visited_warden s' = <[Z.to_nat w := 1]> (visited_warden s) /\
  seen s' = (if w =? x then seen s
             else if light_on s then set_entry (seen s) w x 1 else seen s) /\
  light_on s' = (if d s mod K =? K - 1 then false
                 else if w =? x then true else light_on s).
Proof.
  unfold day. destruct (Z.eqb_spec K 0) as [|HK]; [discriminate|].
  destruct (np_random_randint (rng s) N) as [w g'] eqn:E. simpl.
  intros H. inversion H; subst; clear H. simpl. repeat split; try reflexivity.
  exact HK.
Qed.

(** The indices of the write are inside the arrays. *)
Lemma day_indices_in_range (N K : Z) (s : state) :
  1 <= N ->
  0 <= fst (np_random_randint (rng s) N) < N /\
  0 <= observer N K (d s) < N.
Proof.
  intros HN. split; [apply randint_range; lia|].
  unfold observer. apply Z.mod_pos_bound. lia.
Qed.

Lemma day_total (N K : Z) (s : state) :
  K <> 0 -> exists s', day N K s = Ret s'.
Proof.
  intros HK. unfold day. destruct (Z.eqb_spec K 0) as [|_]; [contradiction|].
  destruct (np_random_randint (rng s) N). eexists. reflexivity.
Qed.

Lemma day_seen_cases (N K : Z) (s s' : state) :
  day N K s = Ret s' ->
  seen s' = seen s \/
  (seen s' = set_entry (seen s) (fst (np_random_randint (rng s) N))
               (observer N K (d s)) 1 /\
   light_on s = true /\
   fst (np_random_randint (rng s) N) <> observer N K (d s)).
Proof.
  intros H. apply day_Ret in H. simpl in H.
  destruct H as (_ & _ & _ & _ & Hs & _). rewrite Hs.
  destruct (Z.eqb_spec (fst (np_random_randint (rng s) N)) (observer N K (d s)));
    [left; reflexivity|].
  destruct (light_on s); [right; repeat split; auto | left; reflexivity].
Qed.

Lemma day_square (N K : Z) (n : nat) (s s' : state) :
  day N K s = Ret s' -> square n (seen s) -> square n (seen s').
Proof.
  intros H Hsq. destruct (day_seen_cases _ _ _ _ H) as [->|[-> _]];
    [exact Hsq | apply square_set_entry; exact Hsq].
Qed.

Lemma day_mono (N K : Z) (s s' : state) (a b : nat) :
  day N K s = Ret s' -> entry (seen s) a b = 1 -> entry (seen s') a b = 1.
Proof.
  intros H Ha. destruct (day_seen_cases _ _ _ _ H) as [->|[-> _]];
    [exact Ha | apply entry_set_entry_mono; exact Ha].
Qed.

(** ** The trial, day by day *)

Lemma days_S (N K : Z) (n : nat) (s0 s' : state) :
  days N K (S n) s0 = Some s' ->
  exists s, days N K n s0 = Some s /\ loop_test N s = Ret true /\
            day N K s = Ret s'.
Proof.
  simpl. destruct (days N K n s0) as [s|]; [|discriminate].
  destruct (loop_test N s) as [[|]| |] eqn:Ht; try discriminate.
  destruct (day N K s) as [s2| |] eqn:Hd; try discriminate.
  intros H; inversion H; subst. exists s. auto.
Qed.

Lemma days_prefix (N K : Z) (n m : nat) (s0 s : state) :
  days N K n s0 = Some s -> (m <= n)%nat -> exists s1, days N K m s0 = Some s1.
Proof.
  revert s. induction n as [|n IH]; intros s H Hm.
  - assert (m = 0%nat) as -> by lia. eauto.
  - destruct (decide (m = S n)) as [->|Hne]; [eauto|].
    apply days_S in H. destruct H as (s1 & H1 & _). eapply IH; [exact H1 | lia].
Qed.

(** Unfolding the first day instead of the last. *)
Lemma days_front (N K : Z) (n : nat) (s0 s1 : state) :
  loop_test N s0 = Ret true -> day N K s0 = Ret s1 ->
  days N K (S n) s0 = days N K n s1.
Proof.
  intros Ht Hd. induction n as [|n IH].
  - simpl. rewrite Ht, Hd. reflexivity.
  - change (days N K (S (S n)) s0) with
      (match days N K (S n) s0 with
       | Some s1 => match loop_test N s1 with
                    | Ret true => match day N K s1 with
                                  | Ret s2 => Some s2 | _ => None end
                    | _ => None end
       | None => None end).
    rewrite IH. reflexivity.
Qed.

Lemma days_d (N K : Z) (n : nat) (s0 s : state) :
  days N K n s0 = Some s -> d s = d s0 + Z.of_nat n.
Proof.
  revert s. induction n as [|n IH]; intros s H.
  - inversion H; subst. lia.
  - apply days_S in H. destruct H as (s1 & H1 & _ & Hd).
    apply IH in H1. apply day_Ret in Hd. simpl in Hd. lia.
Qed.

Lemma days_rng (N K : Z) (n : nat) (s0 s : state) :
  days N K n s0 = Some s -> rng s = gen_after N n (rng s0).
Proof.
  revert s. induction n as [|n IH]; intros s H.
  - inversion H; subst. reflexivity.
  - apply days_S in H. destruct H as (s1 & H1 & _ & Hd).
    apply IH in H1. apply day_Ret in Hd. simpl in Hd.
    destruct Hd as (_ & Hr & _). simpl. rewrite Hr, H1. reflexivity.
Qed.

Lemma days_square (N K : Z) (k n : nat) (s0 s : state) :
  days N K n s0 = Some s -> square k (seen s0) -> square k (seen s).
Proof.
  revert s. induction n as [|n IH]; intros s H Hsq.
  - inversion H; subst. exact Hsq.
  - apply days_S in H. destruct H as (s1 & H1 & _ & Hd).
    eapply day_square; [exact Hd | apply IH; assumption].
Qed.

Lemma days_mono (N K : Z) (n m : nat) (s0 s1 s2 : state) (a b : nat) :
  (m <= n)%nat -> days N K m s0 = Some s1 -> days N K n s0 = Some s2 ->
  entry (seen s1) a b = 1 -> entry (seen s2) a b = 1.
Proof.
  intros Hmn H1. revert s2. induction n as [|n IH]; intros s2 H2 Ha.
  - assert (m = 0%nat) as -> by lia. simpl in *. congruence.
  - destruct (decide (m = S n)) as [->|Hne]; [congruence|].
    apply days_S in H2. destruct H2 as (s & Hs & _ & Hd).
    eapply day_mono; [exact Hd|]. apply IH; [lia | exact Hs | exact Ha].
Qed.

(** The loop stops in the state reached after some number of days, and
    conversely enough fuel reaches that state. *)
Lemma while_loop_Ret (N K : Z) (fuel : nat) (s s' : state) :
  while_loop N K fuel s = Ret s' ->
  exists n, (n <= fuel)%nat /\ days N K n s = Some s' /\
            loop_test N s' = Ret false.
Proof.
  revert s. induction fuel as [|fuel IH]; intros s; simpl.
  - destruct (loop_test N s) as [[|]| |] eqn:Ht; simpl; try discriminate.
    intros H; inversion H; subst. exists 0%nat. auto.
  - destruct (loop_test N s) as [[|]| |] eqn:Ht; simpl; try discriminate.
    + destruct (day N K s) as [s1| |] eqn:Hd; simpl; try discriminate.
      intros H. apply IH in H. destruct H as (n & Hn & H1 & H2).
      exists (S n). split; [lia|]. split; [|exact H2].
      rewrite (days_front _ _ _ _ _ Ht Hd). exact H1.
    + intros H; inversion H; subst. exists 0%nat. split; [lia | auto].
Qed.

Lemma days_while_loop (N K : Z) (n fuel : nat) (s s' : state) :
  days N K n s = Some s' -> loop_test N s' = Ret false -> (n <= fuel)%nat ->
  while_loop N K fuel s = Ret s'.
Proof.
  revert s fuel. induction n as [|n IH]; intros s fuel H Ht Hf.
  - inversion H; subst. destruct fuel; simpl; rewrite Ht; reflexivity.
  - destruct (days_prefix _ _ _ 1 _ _ H ltac:(lia)) as (s1 & H1).
    apply days_S in H1. destruct H1 as (s0 & E & Ht0 & Hd0).
    inversion E; subst s0.
    rewrite (days_front _ _ _ _ _ Ht0 Hd0) in H.
    destruct fuel as [|fuel]; [lia|]. simpl. rewrite Ht0. simpl. rewrite Hd0. simpl.
    apply IH; [exact H | exact Ht | lia].
Qed.

End DayFacts.

(** ** Invariants of the trial *)

Section Invariants.
Context {P : PRNG}.

Lemma init_diagonal (N : Z) (g : gen) (i : nat) :
  (i < Z.to_nat N)%nat -> entry (seen (init N g)) i i = 1.
Proof.
  intros Hi. simpl. rewrite np_eye_entry by exact Hi.
  rewrite Nat.eqb_refl. reflexivity.
Qed.

Lemma days_diagonal (N K : Z) (n : nat) (g : gen) (s : state) (i : nat) :
  days N K n (init N g) = Some s -> (i < Z.to_nat N)%nat ->
  entry (seen s) i i = 1.
Proof.
  intros H Hi. eapply (days_mono N K n 0); [lia | reflexivity | exact H |].
  apply init_diagonal. exact Hi.
Qed.

Lemma days_init_square (N K : Z) (n : nat) (g : gen) (s : state) :
  days N K n (init N g) = Some s -> square (Z.to_nat N) (seen s).
Proof.
  intros H. eapply days_square; [exact H|]. apply square_np_eye.
Qed.

Lemma days_init_d (N K : Z) (n : nat) (g : gen) (s : state) :
  days N K n (init N g) = Some s -> d s = Z.of_nat n.
Proof. intros H. apply days_d in H. simpl in H. lia. Qed.

Lemma days_init_draw (N K : Z) (n : nat) (g : gen) (s : state) :
  days N K n (init N g) = Some s ->
  fst (np_random_randint (rng s) N) = draw N n g.
Proof. intros H. apply days_rng in H. rewrite H. reflexivity. Qed.

(** A day that is not the last of its window stays in the window. *)
Lemma same_window (K n : Z) :
  1 <= K -> 0 <= n -> n mod K <> K - 1 ->
  (n + 1) / K = n / K /\ (n + 1) mod K <> 0.
Proof.
  intros HK Hn Hlast.
  pose proof (Z.div_mod n K ltac:(lia)) as E.
  pose proof (Z.mod_pos_bound n K ltac:(lia)) as B.
  assert (Hq : (n + 1) / K = n / K).
  { symmetry. apply (Z.div_unique (n + 1) K (n / K) (n mod K + 1)); lia. }
  split; [exact Hq|].
  assert (Hr : (n + 1) mod K = n mod K + 1).
  { symmetry. apply (Z.mod_unique (n + 1) K (n / K) (n mod K + 1)); lia. }
  lia.
Qed.

(** The light is on only from a visit of the observer earlier in the
    current window; in particular it is off when a window begins. *)
Lemma light_invariant (N K : Z) (n : nat) (g : gen) (s : state) :
  1 <= K -> days N K n (init N g) = Some s -> light_on s = true ->
  Z.of_nat n mod K <> 0 /\
  exists n' : nat, (n' < n)%nat /\ Z.of_nat n' / K = Z.of_nat n / K /\
                   draw N n' g = observer N K (Z.of_nat n).
Proof.
  intros HK. revert s. induction n as [|n IH]; intros s H Hl.
  - inversion H; subst. discriminate.
  - apply days_S in H. destruct H as (s1 & H1 & _ & Hd).
    pose proof (days_init_d _ _ _ _ _ H1) as Hd1.
    pose proof (days_init_draw _ _ _ _ _ H1) as Hw.
    apply day_Ret in Hd. simpl in Hd. destruct Hd as (_ & _ & _ & _ & _ & Hlight).
    rewrite Hl, Hd1, Hw in Hlight.
    destruct (Z.eqb_spec (Z.of_nat n mod K) (K - 1)) as [|Hlast]; [discriminate|].
    destruct (same_window K (Z.of_nat n) HK ltac:(lia) Hlast) as [Hq Hr].
    replace (Z.of_nat (S n)) with (Z.of_nat n + 1) by lia.
    split; [exact Hr|]. unfold observer in *. rewrite Hq.
    destruct (Z.eqb_spec (draw N n g) (Z.of_nat n / K mod N)) as [Hx|Hx].
    + exists n. split; [lia|]. split; [reflexivity | exact Hx].
    + destruct (IH s1 H1 (eq_sym Hlight)) as (_ & n' & Hlt & Hq' & Hdraw).
      exists n'. split; [lia|]. split; [exact Hq' | exact Hdraw].
Qed.

(** While the loop runs, the population is not empty. *)
Lemma loop_test_Ret_pos (N : Z) (n : nat) (s : state) (b : bool) :
  square n (seen s) -> loop_test N s = Ret b -> (0 < n)%nat.
Proof.
  intros [Hl _]. unfold loop_test, np_sum_axis1.
  destruct (seen s) as [|row m]; simpl in *; [discriminate | lia].
Qed.

(** After the loop, the largest row sum is [N - 1]. *)
Lemma loop_test_false (N : Z) (s : state) :
  loop_test N s = Ret false -> np_max (np_sum_axis1 (seen s)) = Some (N - 1).
Proof.
  unfold loop_test. destruct (np_max _) as [m|]; [|discriminate].
  intros H. inversion H as [E]. f_equal.
  destruct (Z.eqb_spec m (N - 1)); [assumption | discriminate].
Qed.

(** With three agents or more the test lets the first day run. *)
Lemma first_day_runs (N K : Z) (fuel : nat) (g : gen) (s : state) :
  3 <= N -> while_loop N K fuel (init N g) = Ret s -> 1 <= d s.
Proof.
  intros HN H. apply while_loop_Ret in H. destruct H as (n & _ & Hn & Ht).
  destruct n as [|n].
  - inversion Hn; subst. apply loop_test_false in Ht. simpl in Ht.
    rewrite np_max_eye in Ht by lia. inversion Ht. lia.
  - apply days_init_d in Hn. lia.
Qed.

(** With two agents the test fails before any day is simulated. *)
Lemma while_loop_two_agents (K : Z) (fuel : nat) (g : gen) :
  while_loop 2 K fuel (init 2 g) = Ret (init 2 g).
Proof. destruct fuel; reflexivity. Qed.

End Invariants.

(** ** The stopping condition *)

(** C1: when the loop stops, the largest row sum of [seen], diagonal
    included, is [N - 1]; so every agent knows at most [N - 2] of the other
    agents, and some agent knows exactly [N - 2] of them: the loop stops one
    agent short of "the N-1 others". *)
Theorem loop_stops_one_short `{P : PRNG} (N K : Z) (fuel : nat) (g : gen)
    (s : state) :
  while_loop N K fuel (init N g) = Ret s ->
  np_max (np_sum_axis1 (seen s)) = Some (N - 1) /\
  (forall i : nat, (i < Z.to_nat N)%nat -> others_known (seen s) i <= N - 2) /\
  (exists i : nat, (i < Z.to_nat N)%nat /\ others_known (seen s) i = N - 2).
Proof.
  intros H. apply while_loop_Ret in H. destruct H as (n & _ & Hn & Ht).
  apply loop_test_false in Ht. split; [exact Ht|].
  pose proof (days_init_square _ _ _ _ _ Hn) as Hsq.
  destruct (np_max_spec _ _ Ht) as [Hle Hin].
  assert (Hrow : forall i row, seen s !! i = Some row ->
                 (i < Z.to_nat N)%nat /\
                 others_known (seen s) i = np_sum row - 1).
  { intros i row Hi.
    assert (Hlt : (i < Z.to_nat N)%nat).
    { destruct Hsq as [Hl _]. rewrite <- Hl. apply lookup_lt_is_Some. eauto. }
    split; [exact Hlt|]. unfold others_known. rewrite Hi. simpl.
    rewrite (days_diagonal _ _ _ _ _ _ Hn Hlt). reflexivity. }
  split.
  - intros i Hi.
    destruct (lookup_lt_is_Some_2 (seen s) i) as [row Hr].
    { destruct Hsq as [Hl _]. rewrite Hl. exact Hi. }
    destruct (Hrow i row Hr) as [_ ->].
    rewrite Forall_lookup in Hle.
    assert (np_sum row <= N - 1); [|lia].
    apply (Hle i). unfold np_sum_axis1. rewrite list_lookup_fmap, Hr. reflexivity.
  - apply list_elem_of_lookup in Hin. destruct Hin as [i Hi].
    unfold np_sum_axis1 in Hi. rewrite list_lookup_fmap in Hi.
    destruct (seen s !! i) as [row|] eqn:Hr; [|discriminate].
    simpl in Hi. inversion Hi as [Hs].
    destruct (Hrow i row Hr) as [Hlt E]. exists i.
    split; [exact Hlt | rewrite E; lia].
Qed.

Lemma loop_stops_one_short_witness :
  np_max (np_sum_axis1 [[1; 0; 0]; [1; 1; 0]; [0; 0; 1]]) = Some (3 - 1) /\
  (forall i : nat, (i < Z.to_nat 3)%nat ->
     others_known [[1; 0; 0]; [1; 1; 0]; [0; 0; 1]] i <= 3 - 2) /\
  (exists i : nat, (i < Z.to_nat 3)%nat /\
     others_known [[1; 0; 0]; [1; 1; 0]; [0; 0; 1]] i = 3 - 2).
Proof.
  apply (loop_stops_one_short (P := replay) 3 10 10 [2; 0; 1]
           (@State replay [[1; 0; 0]; [1; 1; 0]; [0; 0; 1]] [1; 1; 1] 3 true [])).
  vm_compute. reflexivity.
Defined.

(** C4: with two agents the stopping condition already holds for the
    identity matrix, so the loop ends before day 0 is simulated and the day
    counter is still 0. *)
Theorem loop_exits_at_day_zero_N2 `{P : PRNG} (K : Z) (fuel : nat) (g : gen) :
  while_loop 2 K fuel (init 2 g) = Ret (init 2 g) /\ d (init 2 g) = 0.
Proof. split; [apply while_loop_two_agents | reflexivity]. Qed.

(** C2: the assertion after the loop can fire.  With two agents every call
    raises: [ValueError] on a seed that [np.random.seed] rejects, and on any
    other call the assertion fails, no agent having been drawn; with three
    agents it fails when agent 0 and then agent 1 are drawn, agent 2 never
    having visited. *)
Theorem assertion_fires `{P : PRNG} (seed : option Z) (K : Z) (fuel : nat)
    (g : gen) :
  do_simulation g seed 2 K fuel
    = (let* ok := check_seed seed in Raise AssertionError) /\
  do_simulation (P := replay) [0; 1] None 3 10 10 = Raise AssertionError.
Proof.
  split; [|vm_compute; reflexivity].
  unfold do_simulation. destruct (check_seed seed) as [[]| |]; try reflexivity.
  cbn [bind]. simpl. rewrite while_loop_two_agents. reflexivity.
Qed.

(** ** The knowledge matrix *)

(** C7: at every day of a trial the diagonal of [seen] is true, and an entry
    that was true at an earlier day of the trial is still true. *)
Theorem seen_diagonal_and_monotone `{P : PRNG} (N K : Z) (g : gen) (n : nat)
    (s : state) :
  days N K n (init N g) = Some s ->
  (forall i : nat, (i < Z.to_nat N)%nat -> entry (seen s) i i = 1) /\
  (forall (m : nat) (s1 : state) (i j : nat),
      (m <= n)%nat -> days N K m (init N g) = Some s1 ->
      entry (seen s1) i j = 1 -> entry (seen s) i j = 1).
Proof.
  intros H. split.
  - intros i Hi. eapply days_diagonal; eassumption.
  - intros m s1 i j Hm H1 He. eapply days_mono; eassumption.
Qed.

Lemma seen_diagonal_and_monotone_witness :
  (forall i : nat, (i < Z.to_nat 3)%nat ->
     entry [[1; 0; 0]; [1; 1; 0]; [0; 0; 1]] i i = 1) /\
  (forall (m : nat) (s1 : state) (i j : nat),
      (m <= 3)%nat -> days 3 10 m (init 3 [2; 0; 1]) = Some s1 ->
      entry (seen s1) i j = 1 ->
      entry [[1; 0; 0]; [1; 1; 0]; [0; 0; 1]] i j = 1).
Proof.
  apply (seen_diagonal_and_monotone (P := replay) 3 10 [2; 0; 1] 3
           (@State replay [[1; 0; 0]; [1; 1; 0]; [0; 0; 1]] [1; 1; 1] 3 true [])).
  vm_compute. reflexivity.
Defined.

(** ** The light *)

(** C8: the light is off at the first day of every rotation window; the
    write [seen[with_warden, x] = 1] is executed on day [n] only if the
    observer of that day was drawn as visitor on an earlier day of the same
    window; and an entry of [seen] changes on day [n] only through that
    write, at the row of the day's visitor and the column of its observer. *)
Theorem recorded_only_after_observer_visit `{P : PRNG} (N K : Z) (g : gen)
    (n : nat) (s s' : state) :
  2 <= N -> 1 <= K ->
  days N K n (init N g) = Some s ->
  days N K (S n) (init N g) = Some s' ->
  (Z.of_nat n mod K = 0 -> light_on s = false) /\
  (records N K s = true ->
     exists n' : nat,
       (n' < n)%nat /\ Z.of_nat n' / K = Z.of_nat n / K /\
       draw N n' g = observer N K (Z.of_nat n)) /\
  (forall i j : nat,
      entry (seen s') i j <> entry (seen s) i j ->
      records N K s = true /\
      Z.of_nat i = draw N n g /\
      Z.of_nat j = observer N K (Z.of_nat n)).
Proof.
  intros HN HK Hs Hs'. split; [|split].
  - intros Hfirst. destruct (light_on s) eqn:Hl; [|reflexivity].
    destruct (light_invariant N K n g s HK Hs Hl) as [Hne _]. contradiction.
  - unfold records. intros Hrec. apply andb_true_iff in Hrec.
    destruct Hrec as [_ Hl].
    destruct (light_invariant N K n g s HK Hs Hl) as [_ Hex]. exact Hex.
  - intros i j Hch. apply days_S in Hs'. destruct Hs' as (s1 & H1 & _ & Hd).
    rewrite Hs in H1. inversion H1; subst s1. clear H1.
    pose proof (days_init_d _ _ _ _ _ Hs) as Hday.
    pose proof (days_init_draw _ _ _ _ _ Hs) as Hw.
    destruct (day_seen_cases _ _ _ _ Hd) as [E|(E & Hl & Hne)].
    + rewrite E in Hch. contradiction.
    + rewrite E in Hch. apply entry_set_entry_changed in Hch.
      destruct Hch as [-> ->].
      destruct (day_indices_in_range N K s ltac:(lia)) as [Hr Hx].
      split.
      * unfold records. rewrite Hl.
        destruct (Z.eqb_spec (fst (np_random_randint (rng s) N))
                    (observer N K (d s))); [contradiction | reflexivity].
      * rewrite <- Hw, <- Hday. split; lia.
Qed.

Lemma recorded_only_after_observer_visit_witness :
  (Z.of_nat 2 mod 10 = 0 -> true = false) /\
  (records (P := replay) 3 10 (@State replay (np_eye 3) [1; 0; 1] 2 true [1])
     = true ->
     exists n' : nat,
       (n' < 2)%nat /\ Z.of_nat n' / 10 = Z.of_nat 2 / 10 /\
       draw (P := replay) 3 n' [2; 0; 1] = observer 3 10 (Z.of_nat 2)) /\
  (forall i j : nat,
      entry [[1; 0; 0]; [1; 1; 0]; [0; 0; 1]] i j <> entry (np_eye 3) i j ->
      records (P := replay) 3 10 (@State replay (np_eye 3) [1; 0; 1] 2 true [1])
        = true /\
      Z.of_nat i = draw (P := replay) 3 2 [2; 0; 1] /\
      Z.of_nat j = observer 3 10 (Z.of_nat 2)).
Proof.
  apply (recorded_only_after_observer_visit (P := replay) 3 10 [2; 0; 1] 2
           (@State replay (np_eye 3) [1; 0; 1] 2 true [1])
           (@State replay [[1; 0; 0]; [1; 1; 0]; [0; 0; 1]] [1; 1; 1] 3 true []));
    [lia | lia | vm_compute; reflexivity | vm_compute; reflexivity].
Defined.

(** ** Configurations outside N >= 2, K >= 1 *)

Section Configuration.
Context {P : PRNG}.

(** With one agent the matrix never changes and the test never fails. *)
Lemma while_loop_one_agent (K : Z) (fuel : nat) (s : state) :
  K <> 0 -> seen s = [[1]] -> while_loop 1 K fuel s = OutOfFuel.
Proof.
  intros HK. revert s. induction fuel as [|fuel IH]; intros s Hs.
  - simpl. unfold loop_test. rewrite Hs. reflexivity.
  - simpl. unfold loop_test. rewrite Hs. simpl.
    destruct (day_total 1 K s HK) as [s' Hd]. rewrite Hd. simpl.
    apply IH. destruct (day_seen_cases _ _ _ _ Hd) as [E|(_ & _ & Hne)].
    + rewrite E. exact Hs.
    + exfalso. apply Hne.
      pose proof (randint_range (rng s) 1 ltac:(lia)) as Hr.
      unfold observer. rewrite Z.mod_1_r. lia.
Qed.

Lemma loop_test_init (N : Z) (g : gen) :
  1 <= N -> loop_test N (init N g) = Ret (negb (1 =? N - 1)).
Proof.
  intros HN. unfold loop_test. simpl. rewrite np_max_eye by exact HN.
  reflexivity.
Qed.

(** With rotation period 1 the loop test never fails on the identity. *)
Lemma loop_test_identity (N : Z) (s : state) :
  3 <= N -> seen s = np_eye N -> loop_test N s = Ret true.
Proof.
  intros HN Hs. unfold loop_test. rewrite Hs, np_max_eye by lia.
  destruct (Z.eqb_spec 1 (N - 1)); [lia | reflexivity].
Qed.

Lemma while_loop_period_one (N : Z) (fuel : nat) (s : state) :
  3 <= N -> light_on s = false -> seen s = np_eye N ->
  while_loop N 1 fuel s = OutOfFuel.
Proof.
  intros HN. revert s. induction fuel as [|fuel IH]; intros s Hl Hs.
  - cbn [while_loop]. rewrite (loop_test_identity N s HN Hs). reflexivity.
  - cbn [while_loop]. rewrite (loop_test_identity N s HN Hs). cbn [bind].
    destruct (day_total N 1 s ltac:(lia)) as [s' Hd]. rewrite Hd. cbn [bind].
    apply day_Ret in Hd. simpl in Hd.
    destruct Hd as (_ & _ & _ & _ & Hseen & Hlight).
    rewrite Z.mod_1_r in Hlight. simpl in Hlight. rewrite Hl in Hseen.
    apply IH; [exact Hlight|]. rewrite Hseen, Hs. destruct (_ =? _); reflexivity.
Qed.

Lemma seeded_run_ignores_generator (s : Z) (g1 g2 : gen) (N K : Z)
    (fuel : nat) :
  s <> 0 ->
  do_simulation g1 (Some s) N K fuel = do_simulation g2 (Some s) N K fuel.
Proof.
  intros Hs. unfold do_simulation, seed_generator.
  destruct (Z.eqb_spec s 0); [contradiction | reflexivity].
Qed.

End Configuration.

(** C3 (as the code behaves): [do_simulation] checks neither [N] nor [K].
    With a seed that [np.random.seed] accepts, or none: with no agent or a
    negative number of agents NumPy raises [ValueError] before any day is
    simulated; with one agent and a rotation period other than 0 the call
    never returns and never raises, whatever the fuel; with rotation period 0
    and one agent, or three agents or more, the first simulated day raises
    [ZeroDivisionError]; with rotation period 0 and two agents the assertion
    fails before any day is simulated. *)
Theorem invalid_configuration_not_rejected `{P : PRNG} (g : gen)
    (seed : option Z) (fuel : nat) :
  check_seed seed = Ret tt ->
  (forall N K : Z, N <= 0 -> do_simulation g seed N K fuel = Raise ValueError) /\
  (forall K : Z, K <> 0 -> do_simulation g seed 1 K fuel = OutOfFuel) /\
  (forall N : Z, N = 1 \/ 3 <= N ->
     do_simulation g seed N 0 (S fuel) = Raise ZeroDivisionError) /\
  do_simulation g seed 2 0 fuel = Raise AssertionError.
Proof.
  intros Hc. unfold do_simulation. rewrite Hc. cbn [bind].
  split; [|split; [|split]].
  - intros N K HN. destruct (Z.ltb_spec N 0) as [|HN0]; [reflexivity|].
    assert (N = 0) as -> by lia. destruct fuel; reflexivity.
  - intros K HK. simpl.
    rewrite while_loop_one_agent; [reflexivity | exact HK | reflexivity].
  - intros N HN. destruct (Z.ltb_spec N 0) as [|_]; [lia|].
    cbn [while_loop]. rewrite loop_test_init by lia.
    destruct (Z.eqb_spec 1 (N - 1)) as [|_]; [lia|]. reflexivity.
  - simpl. rewrite while_loop_two_agents. reflexivity.
Qed.

Lemma invalid_configuration_not_rejected_witness :
  (forall N K : Z, N <= 0 ->
     do_simulation (P := replay) [] None N K 7 = Raise ValueError) /\
  (forall K : Z, K <> 0 ->
     do_simulation (P := replay) [] None 1 K 7 = OutOfFuel) /\
  (forall N : Z, N = 1 \/ 3 <= N ->
     do_simulation (P := replay) [] None N 0 (S 7) = Raise ZeroDivisionError) /\
  do_simulation (P := replay) [] None 2 0 7 = Raise AssertionError.
Proof.
  apply (invalid_configuration_not_rejected (P := replay) [] None 7).
  reflexivity.
Defined.

(** C3 (as stated) fails: with N = 1 and K = 10 no error is raised, and five
    days have been simulated when the fuel of five days is spent. *)
Lemma one_agent_is_simulated :
  do_simulation (P := replay) [] None 1 10 5 = OutOfFuel /\
  d <$> days (P := replay) 1 10 5 (init 1 []) = Some 5.
Proof. split; vm_compute; reflexivity. Qed.

(** ** Seeding *)

(** C5: two runs with the seed 0 and the same [N] and [K] that start in
    different generator states end after 3 and after 4 days. *)
Theorem seed_zero_runs_differ :
  (res_d ∘ fst) <$> run_value (do_simulation (P := replay) [2; 0; 1] (Some 0) 3 10 10)
    = Some 3 /\
  (res_d ∘ fst) <$> run_value (do_simulation (P := replay) [1; 1; 0; 2] (Some 0) 3 10 10)
    = Some 4.
Proof. split; vm_compute; reflexivity. Qed.

(** C6: the seed 0 is treated as no seed, so the run depends on the state the
    generator is in; any other seed fixes the run. *)
Theorem seed_zero_leaves_generator_unseeded :
  (forall (P : PRNG) (g : gen) (N K : Z) (fuel : nat),
      do_simulation g (Some 0) N K fuel = do_simulation g None N K fuel) /\
  (forall (P : PRNG) (s : Z) (g1 g2 : gen) (N K : Z) (fuel : nat),
      s <> 0 ->
      do_simulation g1 (Some s) N K fuel = do_simulation g2 (Some s) N K fuel) /\
  (exists (g1 g2 : list Z) (r1 r2 : outcome * list Z),
      do_simulation (P := replay) g1 (Some 0) 3 10 10 = Ret r1 /\
      do_simulation (P := replay) g2 (Some 0) 3 10 10 = Ret r2 /\
      res_d (fst r1) <> res_d (fst r2) /\
      res_seen (fst r1) <> res_seen (fst r2)).
Proof.
  split; [|split].
  - intros. reflexivity.
  - intros. apply seeded_run_ignores_generator. assumption.
  - exists [2; 0; 1], [1; 1; 0; 2]. eexists. eexists.
    split; [vm_compute; reflexivity|]. split; [vm_compute; reflexivity|].
    split; simpl; discriminate.
Qed.

Lemma seed_zero_leaves_generator_unseeded_witness :
  do_simulation (P := replay) [2; 0; 1] (Some 7) 3 10 10 =
  do_simulation (P := replay) [5; 5] (Some 7) 3 10 10.
Proof.
  apply (proj1 (proj2 seed_zero_leaves_generator_unseeded) replay 7).
  lia.
Defined.

(** ** The result *)

Lemma square_concat_length (n : nat) (m : list (list Z)) :
  square n m -> length (concat m) = (n * n)%nat.
Proof.
  intros [Hl H]. rewrite <- Hl at 1. clear Hl.
  induction H as [|row m [Hr _] _ IH]; [reflexivity|].
  simpl. rewrite length_app, IH, Hr. reflexivity.
Qed.

Lemma square_concat_bits (n : nat) (m : list (list Z)) :
  square n m -> bits (concat m).
Proof.
  intros [_ H]. unfold bits. apply Forall_concat.
  eapply Forall_impl; [exact H|]. simpl. intros row [_ Hb]. exact Hb.
Qed.

Lemma percentage_bounds (c S : Z) :
  0 <= c <= S -> 0 < S ->
  (0 <= 100 * inject_Z c / inject_Z S <= 100)%Q.
Proof.
  intros Hc HS.
  assert (HSq : (0 < inject_Z S)%Q).
  { unfold Qlt, inject_Z. simpl. lia. }
  split.
  - apply Qle_shift_div_l; [exact HSq|].
    unfold Qle, Qmult, inject_Z. simpl. lia.
  - apply Qle_shift_div_r; [exact HSq|].
    unfold Qle, Qmult, inject_Z. simpl. lia.
Qed.

(** What a run that returns has computed. *)
Lemma do_simulation_Ret `{P : PRNG} (g : gen) (seed : option Z) (N K : Z)
    (fuel : nat) (o : outcome) (g' : gen) :
  do_simulation g seed N K fuel = Ret (o, g') ->
  exists s : state,
    while_loop N K fuel (init N (seed_generator seed g)) = Ret s /\
    np_sum (visited_warden s) = N /\
    res_d o = d s /\ res_seen o = seen s /\ g' = rng s /\
    res_coverage o =
      (100 * inject_Z (np_sum2 (seen s)) / inject_Z (np_size (seen s)))%Q.
Proof.
  unfold do_simulation. destruct (check_seed seed) as [[]| |]; cbn [bind];
    try discriminate.
  destruct (N <? 0); [discriminate|].
  destruct (while_loop N K fuel _) as [s| |] eqn:Hw; simpl; try discriminate.
  unfold finish. destruct (Z.eqb_spec (np_sum (visited_warden s)) N) as [Hv|];
    [|discriminate].
  intros H. inversion H; subst. exists s. simpl. repeat split; auto.
Qed.

(** C9: the coverage returned is 100 times the number of true entries of the
    returned matrix divided by N squared, and lies between 0 and 100. *)
Theorem coverage_is_percentage_of_true_entries `{P : PRNG} (g : gen)
    (seed : option Z) (N K : Z) (fuel : nat) (o : outcome) (g' : gen) :
  do_simulation g seed N K fuel = Ret (o, g') ->
  res_coverage o =
    (100 * inject_Z (count_true (concat (res_seen o))) / inject_Z (N * N))%Q /\
  (0 <= res_coverage o <= 100)%Q.
Proof.
  intros H. apply do_simulation_Ret in H.
  destruct H as (s & Hw & _ & _ & Hseen & _ & Hcov).
  apply while_loop_Ret in Hw. destruct Hw as (n & _ & Hn & Ht).
  pose proof (days_init_square _ _ _ _ _ Hn) as Hsq.
  pose proof (loop_test_Ret_pos _ _ _ _ Hsq Ht) as Hpos.
  assert (Hsum : np_sum2 (seen s) = count_true (concat (seen s))).
  { apply bits_sum_count. eapply square_concat_bits. exact Hsq. }
  assert (Hsize : np_size (seen s) = N * N).
  { unfold np_size. rewrite (square_concat_length _ _ Hsq). lia. }
  rewrite Hcov, Hseen, Hsum, Hsize. split; [reflexivity|].
  apply percentage_bounds; [|lia].
  pose proof (count_true_bounds (concat (seen s))) as Hb.
  rewrite (square_concat_length _ _ Hsq) in Hb. lia.
Qed.

Lemma coverage_is_percentage_of_true_entries_witness :
  (400 # 9)%Q =
    (100 * inject_Z (count_true (concat [[1; 0; 0]; [1; 1; 0]; [0; 0; 1]]%Z))
     / inject_Z (3 * 3))%Q /\
  (0 <= 400 # 9 <= 100)%Q.
Proof.
  apply (coverage_is_percentage_of_true_entries (P := replay) [2; 0; 1] None
           3 10 10
           (Outcome 3 (400 # 9) [[1; 0; 0]; [1; 1; 0]; [0; 0; 1]]) []).
  vm_compute. reflexivity.
Defined.

(** ** The sweep *)

Lemma years_pos (dd : Z) : 1 <= dd -> (0 < years dd)%Q.
Proof.
  intros H. unfold years, Qlt, Qdiv, Qmult, Qinv, inject_Z. simpl. lia.
Qed.

Lemma rect_replicate (n w : nat) (q : Q) : rect n w (replicate n (replicate w q)).
Proof.
  split; [apply length_replicate|].
  apply Forall_replicate. apply length_replicate.
Qed.

Lemma rect_update (n w : nat) (T : list (list Q)) (t i : nat) (y : Q) :
  rect n w T -> rect n w (alter (fun row => <[i := y]> row) t T).
Proof.
  intros [Hl H]. split; [rewrite length_alter; exact Hl|].
  apply Forall_alter; [exact H|]. intros row _ Hr.
  rewrite length_insert. exact Hr.
Qed.

Lemma cell_update (n w : nat) (T : list (list Q)) (t i : nat) (y : Q)
    (t' j : nat) :
  rect n w T -> (t < n)%nat -> (i < w)%nat ->
  cell (alter (fun row => <[i := y]> row) t T) t' j =
  if decide (t' = t /\ j = i) then Some y else cell T t' j.
Proof.
  intros [Hl H] Ht Hi. unfold cell.
  destruct (decide (t' = t)) as [->|Hne].
  - rewrite list_lookup_alter_eq.
    destruct (lookup_lt_is_Some_2 T t) as [row Hrow]; [lia|].
    rewrite Hrow. simpl.
    assert (Hw : length row = w).
    { rewrite Forall_lookup in H. exact (H t row Hrow). }
    destruct (decide (j = i)) as [->|Hj].
    + rewrite list_lookup_insert_eq by lia.
      destruct (decide _) as [_|Hn]; [reflexivity | exfalso; apply Hn; auto].
    + rewrite list_lookup_insert_ne by congruence.
      destruct (decide _) as [[_ E]|_]; [contradiction | reflexivity].
  - rewrite list_lookup_alter_ne by congruence.
    destruct (decide _) as [[E _]|_]; [contradiction | reflexivity].
Qed.

Lemma cell_rect (n w : nat) (T : list (list Q)) (t i : nat) :
  rect n w T -> (t < n)%nat -> (i < w)%nat -> is_Some (cell T t i).
Proof.
  intros [Hl H] Ht Hi. unfold cell.
  destruct (lookup_lt_is_Some_2 T t) as [row Hrow]; [lia|].
  rewrite Hrow. simpl. apply lookup_lt_is_Some_2.
  rewrite Forall_lookup in H. rewrite (H t row Hrow). exact Hi.
Qed.

Section Sweep.
Context {P : PRNG}.

Lemma run_trials_cons_Ret (fuel : nat) (K : Z) (Ks : list Z) (g g1 g2 : gen)
    (o : outcome) (ds : list Z) :
  do_simulation g None 100 K fuel = Ret (o, g1) ->
  run_trials fuel Ks g1 = Ret (ds, g2) ->
  run_trials fuel (K :: Ks) g = Ret (res_d o :: ds, g2).
Proof. intros H1 H2. simpl. rewrite H1. simpl. rewrite H2. reflexivity. Qed.

Lemma run_trials_app_Ret (fuel : nat) (l1 l2 : list Z) (g g1 g2 : gen)
    (ds1 ds2 : list Z) :
  run_trials fuel l1 g = Ret (ds1, g1) ->
  run_trials fuel l2 g1 = Ret (ds2, g2) ->
  run_trials fuel (l1 ++ l2) g = Ret (ds1 ++ ds2, g2).
Proof.
  revert g ds1. induction l1 as [|K l1 IH]; intros g ds1 H1 H2.
  - simpl in H1. inversion H1; subst. exact H2.
  - simpl in H1.
    destruct (do_simulation g None 100 K fuel) as [[o g0]| |] eqn:E;
      simpl in H1; try discriminate.
    destruct (run_trials fuel l1 g0) as [[ds0 g3]| |] eqn:E1;
      simpl in H1; try discriminate.
    inversion H1; subst.
    change ((K :: l1) ++ l2) with (K :: (l1 ++ l2)).
    change ((res_d o :: ds0) ++ ds2) with (res_d o :: (ds0 ++ ds2)).
    eapply run_trials_cons_Ret; [exact E|].
    eapply IH; [exact E1 | exact H2].
Qed.

(** A trial of 100 agents that returns lasted at least one day. *)
Lemma trial_at_least_one_day (g g' : gen) (K : Z) (fuel : nat) (o : outcome) :
  do_simulation g None 100 K fuel = Ret (o, g') -> 1 <= res_d o.
Proof.
  intros H. apply do_simulation_Ret in H.
  destruct H as (s & Hw & _ & Hd & _). rewrite Hd.
  eapply first_day_runs; [|exact Hw]. lia.
Qed.

End Sweep.

Section SweepLoops.
Context {P : PRNG}.

(** The inner loop fills rows [a .. a+n-1] of column [i] with the years of
    [n] successive trials of period [K]. *)
Lemma for_trials_Ret (fuel : nat) (K : Z) (i n0 w : nat) :
  forall (n a : nat) (trials : list (list Q)) (g : gen)
         (trials' : list (list Q)) (g' : gen),
    rect n0 w trials -> (a + n <= n0)%nat -> (i < w)%nat ->
    for_trials fuel K i (seq a n) trials g = Ret (trials', g') ->
    rect n0 w trials' /\
    exists ds : list Z,
      run_trials fuel (replicate n K) g = Ret (ds, g') /\
      length ds = n /\ Forall (fun dd => 1 <= dd) ds /\
      forall t j : nat,
        cell trials' t j =
        if decide (j = i /\ (a <= t < a + n)%nat)
        then years <$> ds !! (t - a)%nat else cell trials t j.
Proof.
  induction n as [|n IH]; intros a trials g trials' g' Hrect Ha Hi H.
  - simpl in H. inversion H; subst. split; [exact Hrect|].
    exists []. repeat split; [constructor|].
    intros t j. destruct (decide _) as [[_ Hc]|_]; [lia | reflexivity].
  - simpl in H.
    destruct (do_simulation g None 100 K fuel) as [[o g1]| |] eqn:E;
      simpl in H; try discriminate.
    pose proof (trial_at_least_one_day _ _ _ _ _ E) as Hd.
    apply IH in H; [|apply rect_update; exact Hrect | lia | exact Hi].
    destruct H as (Hrect' & ds & Hrun & Hlen & Hall & Hcell).
    split; [exact Hrect'|]. exists (res_d o :: ds).
    split; [eapply run_trials_cons_Ret; eassumption|].
    split; [simpl; lia|]. split; [constructor; assumption|].
    intros t j. rewrite Hcell.
    rewrite (cell_update n0 w) by (try exact Hrect; lia).
    fold (years (res_d o)).
    destruct (decide (j = i /\ (S a <= t < S a + n)%nat)) as [[Hj Ht]|Hn1].
    + destruct (decide _) as [_|Hn]; [|exfalso; apply Hn; split; [exact Hj | lia]].
      replace (t - a)%nat with (S (t - S a)) by lia. reflexivity.
    + destruct (decide (t = a /\ j = i)) as [[-> ->]|Hn2].
      * destruct (decide _) as [_|Hn]; [|exfalso; apply Hn; split; [reflexivity | lia]].
        replace (a - a)%nat with 0%nat by lia. reflexivity.
      * destruct (decide _) as [[Hj Ht]|_]; [|reflexivity].
        exfalso. destruct (decide (t = a)) as [Hta|Hta].
        -- apply Hn2. split; assumption.
        -- apply Hn1. split; [exact Hj | lia].
Qed.

(** The outer loop fills columns [b .. b+|Ks|-1], one batch of [n] trials
    for each period. *)
Lemma for_Ks_Ret (fuel : nat) (NTrials : Z) (n w : nat) :
  n = Z.to_nat NTrials ->
  forall (Ks : list Z) (b : nat) (trials : list (list Q)) (g : gen)
         (trials' : list (list Q)) (g' : gen),
    rect n w trials -> (b + length Ks <= w)%nat ->
    for_Ks fuel NTrials (zip (seq b (length Ks)) Ks) trials g
      = Ret (trials', g') ->
    rect n w trials' /\
    exists ds : list Z,
      run_trials fuel (schedule n Ks) g = Ret (ds, g') /\
      length ds = (length Ks * n)%nat /\
      Forall (fun dd => 1 <= dd) ds /\
      forall t j : nat,
        (t < n)%nat ->
        cell trials' t j =
        if decide (b <= j < b + length Ks)%nat
        then years <$> ds !! ((j - b) * n + t)%nat
        else cell trials t j.
Proof.
  intros Hn.
  induction Ks as [|K Ks IH]; intros b trials g trials' g' Hrect Hb H.
  - simpl in H. inversion H; subst trials' g'. split; [exact Hrect|].
    exists []. repeat split; [constructor|].
    intros t j _. destruct (decide _) as [Hc|_]; [simpl in Hc; lia | reflexivity].
  - simpl in H. rewrite <- Hn in H. clear Hn.
    destruct (for_trials fuel K b (seq 0 n) trials g) as [[trials1 g1]| |] eqn:E;
      simpl in H; try discriminate.
    apply (for_trials_Ret fuel K b n w) in E;
      [|exact Hrect | lia | simpl in Hb; lia].
    destruct E as (Hrect1 & ds1 & Hrun1 & Hlen1 & Hall1 & Hcell1).
    apply IH in H; [|exact Hrect1 | simpl in Hb; lia].
    destruct H as (Hrect' & ds2 & Hrun2 & Hlen2 & Hall2 & Hcell2).
    split; [exact Hrect'|]. exists (ds1 ++ ds2).
    split; [unfold schedule; simpl; eapply run_trials_app_Ret; eassumption|].
    split; [rewrite length_app; simpl; lia|].
    split; [apply Forall_app; split; assumption|].
    intros t j Ht. rewrite (Hcell2 t j Ht), Hcell1. simpl length.
    destruct (decide (S b <= j < S b + length Ks)%nat) as [Hj|Hn1].
    + destruct (decide _) as [_|Hn]; [|exfalso; apply Hn; lia].
      replace ((j - b) * n + t)%nat with (length ds1 + ((j - S b) * n + t))%nat
        by (rewrite Hlen1; replace (j - b)%nat with (S (j - S b)) by lia;
            simpl; lia).
      rewrite lookup_app_r by apply Nat.le_add_r.
      replace (length ds1 + ((j - S b) * n + t) - length ds1)%nat
        with ((j - S b) * n + t)%nat by nia.
      reflexivity.
    + destruct (decide (j = b /\ (0 <= t < 0 + n)%nat)) as [[-> _]|Hn2].
      * destruct (decide _) as [_|Hn]; [|exfalso; apply Hn; lia].
        replace ((b - b) * n + t)%nat with t
          by (replace (b - b)%nat with 0%nat by lia; simpl; reflexivity).
        rewrite lookup_app_l by lia.
        replace (t - 0)%nat with t by lia. reflexivity.
      * destruct (decide _) as [Hj|_]; [|reflexivity].
        exfalso. destruct (decide (j = b)) as [Hjb|Hjb].
        -- apply Hn2. split; [exact Hjb | lia].
        -- apply Hn1. lia.
Qed.

End SweepLoops.

(** C10 (as the code behaves): when the sweep runs to its end, the table has
    [NTrials] rows and one column for each rotation period, the cell
    [(t, i)] holds the days elapsed, divided by 365, of trial [t] of the
    batch run with [Ks[i]] (the trials being run batch after batch on the
    shared generator), and every cell is strictly positive. *)
Theorem sweep_table_when_completed `{P : PRNG} (g : gen) (NTrials : Z)
    (Ks : list Z) (fuel : nat) (trials : list (list Q)) (g' : gen) :
  vary_parameters g NTrials Ks fuel = Ret (trials, g') ->
  length trials = Z.to_nat NTrials /\
  Forall (fun row => length row = length Ks) trials /\
  exists ds : list Z,
    run_trials fuel (schedule (Z.to_nat NTrials) Ks) g = Ret (ds, g') /\
    forall t i : nat,
      (t < Z.to_nat NTrials)%nat -> (i < length Ks)%nat ->
      exists dd : Z,
        ds !! (i * Z.to_nat NTrials + t)%nat = Some dd /\
        cell trials t i = Some (inject_Z dd / 365)%Q /\
        (0 < inject_Z dd / 365)%Q.
Proof.
  unfold vary_parameters, enumerate.
  destruct (NTrials <? 0); [discriminate|]. intros H.
  apply (for_Ks_Ret fuel NTrials (Z.to_nat NTrials) (length Ks) eq_refl Ks 0)
    in H; [|apply rect_replicate | lia].
  destruct H as ([Hl Hw] & ds & Hrun & Hlen & Hall & Hcell).
  split; [exact Hl|]. split; [exact Hw|].
  exists ds. split; [exact Hrun|].
  intros t i Ht Hi.
  destruct (lookup_lt_is_Some_2 ds (i * Z.to_nat NTrials + t)) as [dd Hdd];
    [nia|].
  exists dd. split; [exact Hdd|].
  rewrite Forall_lookup in Hall. pose proof (Hall _ _ Hdd) as Hpos.
  split; [|apply (years_pos dd Hpos)].
  rewrite (Hcell t i Ht).
  destruct (decide _) as [_|Hn]; [|exfalso; apply Hn; lia].
  replace (i - 0)%nat with i by lia. rewrite Hdd. reflexivity.
Qed.

Lemma sweep_table_when_completed_witness :
  length [[293 # 365; 394 # 365; 487 # 365]; [296 # 365; 390 # 365; 492 # 365]]
    = Z.to_nat 2 /\
  Forall (fun row : list Q => length row = length [3; 4; 5])
    [[293 # 365; 394 # 365; 487 # 365]; [296 # 365; 390 # 365; 492 # 365]] /\
  exists ds : list Z,
    run_trials (P := replay) 500 (schedule (Z.to_nat 2) [3; 4; 5]) table_draws
      = Ret (ds, []) /\
    forall t i : nat,
      (t < Z.to_nat 2)%nat -> (i < length [3; 4; 5])%nat ->
      exists dd : Z,
        ds !! (i * Z.to_nat 2 + t)%nat = Some dd /\
        cell [[293 # 365; 394 # 365; 487 # 365];
              [296 # 365; 390 # 365; 492 # 365]] t i
          = Some (inject_Z dd / 365)%Q /\
        (0 < inject_Z dd / 365)%Q.
Proof.
  apply (sweep_table_when_completed (P := replay) table_draws 2 [3; 4; 5] 500
           [[293 # 365; 394 # 365; 487 # 365];
            [296 # 365; 390 # 365; 492 # 365]] []).
  vm_compute. reflexivity.
Defined.

(** A sweep over the rotation period 0 produces no table, its first trial
    raises [ZeroDivisionError]. *)
Lemma sweep_raises_for_period_zero :
  vary_parameters (P := replay) [] 1 [0] 5 = Raise ZeroDivisionError.
Proof. vm_compute. reflexivity. Qed.

(** A sweep of one trial with rotation period 1 never ends. *)
Lemma sweep_period_one_OutOfFuel `{P : PRNG} (g : gen) (fuel : nat) :
  vary_parameters g 1 [1] fuel = OutOfFuel.
Proof.
  unfold vary_parameters, enumerate. simpl. unfold do_simulation. simpl.
  rewrite while_loop_period_one; [reflexivity | lia | reflexivity | reflexivity].
Qed.

(** C10 (as stated) fails: the sweep of one trial with the rotation period
    1 produces no table: whatever the generator and however many days are
    simulated, the trial is still running; so it is for the generator that
    draws agent 0 every day, after 1000 days. *)
Lemma sweep_period_one_never_ends :
  (forall (P : PRNG) (g : gen) (fuel : nat),
      vary_parameters g 1 [1] fuel = OutOfFuel) /\
  vary_parameters (P := replay) [] 1 [1] 1000 = OutOfFuel.
Proof.
  split; [intros P g fuel | ]; apply sweep_period_one_OutOfFuel.
Qed.

(** * Further properties of the simulation *)

(** ** The visitation record *)

Section Visits.
Context {P : PRNG}.

(** The record holds 0 and 1, one entry for each agent, and the entry of an
    agent is 1 exactly when the agent was drawn on an earlier day. *)
Lemma visited_invariant (N K : Z) (g : gen) (n : nat) (s : state) :
  1 <= N -> days N K n (init N g) = Some s ->
  length (visited_warden s) = Z.to_nat N /\
  bits (visited_warden s) /\
  forall i : nat, (i < Z.to_nat N)%nat ->
    (visited_warden s !! i = Some 1 <->
     exists m : nat, (m < n)%nat /\ draw N m g = Z.of_nat i).
Proof.
  intros HN. revert s. induction n as [|n IH]; intros s H.
  - inversion H; subst. simpl. unfold np_zeros.
    split; [apply length_replicate|]. split.
    + unfold bits. apply Forall_replicate. left; reflexivity.
    + intros i Hi. rewrite lookup_replicate_2 by exact Hi. split.
      * discriminate.
      * intros (m & Hm & _). lia.
  - apply days_S in H. destruct H as (s1 & H1 & _ & Hd).
    destruct (IH s1 H1) as (Hlen & Hbits & Hiff).
    pose proof (days_init_draw _ _ _ _ _ H1) as Hw.
    destruct (day_indices_in_range N K s1 HN) as [Hr _].
    apply day_Ret in Hd. simpl in Hd. destruct Hd as (_ & _ & _ & Hv & _).
    rewrite Hv, Hw in *. clear Hv.
    split; [rewrite length_insert; exact Hlen|].
    split; [apply bits_insert; exact Hbits|].
    intros i Hi. destruct (decide (i = Z.to_nat (draw N n g))) as [->|Hne].
    + rewrite list_lookup_insert_eq by lia. split; [|reflexivity].
      intros _. exists n. split; [lia | lia].
    + rewrite list_lookup_insert_ne by congruence. rewrite (Hiff i Hi). split.
      * intros (m & Hm & E). exists m. split; [lia | exact E].
      * intros (m & Hm & E). destruct (decide (m = n)) as [->|Hmn].
        -- exfalso. apply Hne. rewrite E. lia.
        -- exists m. split; [lia | exact E].
Qed.

(** Each day marks at most one more agent as visited. *)
Lemma visited_sum_le_days (N K : Z) (g : gen) (n : nat) (s : state) :
  1 <= N -> days N K n (init N g) = Some s ->
  np_sum (visited_warden s) <= Z.of_nat n.
Proof.
  intros HN. revert s. induction n as [|n IH]; intros s H.
  - inversion H; subst. simpl. unfold np_zeros.
    assert (E : forall k, np_sum (replicate k 0) = 0).
    { induction k as [|k IHk]; [reflexivity|]. unfold np_sum in *. simpl.
      rewrite IHk. reflexivity. }
    rewrite E. lia.
  - apply days_S in H. destruct H as (s1 & H1 & _ & Hd).
    pose proof (IH s1 H1) as Hsum.
    destruct (visited_invariant N K g n s1 HN H1) as (Hlen & Hbits & _).
    destruct (day_indices_in_range N K s1 HN) as [Hr _].
    apply day_Ret in Hd. simpl in Hd. destruct Hd as (_ & _ & _ & Hv & _).
    rewrite Hv.
    destruct (lookup_lt_is_Some_2 (visited_warden s1)
                (Z.to_nat (fst (np_random_randint (rng s1) N)))) as [v Hl];
      [lia|].
    rewrite (np_sum_insert _ _ v 1 Hl).
    destruct (bits_lookup _ _ _ Hbits Hl); lia.
Qed.

End Visits.

(** ** The light and the matrix in terms of the draws *)

Section Knowledge.
Context {P : PRNG}.

(** The last day of a window is followed by the first day of the next. *)
Lemma next_window (K n : Z) :
  1 <= K -> 0 <= n -> n mod K = K - 1 -> (n + 1) / K = n / K + 1.
Proof.
  intros HK Hn Hlast.
  pose proof (Z.div_mod n K ltac:(lia)) as E.
  symmetry. apply (Z.div_unique (n + 1) K (n / K + 1) 0); lia.
Qed.

(** The light is on at the start of a day exactly when the observer of that
    day was drawn on an earlier day of the same window. *)
Lemma light_on_iff (N K : Z) (g : gen) (n : nat) (s : state) :
  1 <= K -> days N K n (init N g) = Some s ->
  (light_on s = true <->
   exists n' : nat, (n' < n)%nat /\ Z.of_nat n' / K = Z.of_nat n / K /\
                    draw N n' g = observer N K (Z.of_nat n)).
Proof.
  intros HK H. split.
  - intros Hl. destruct (light_invariant N K n g s HK H Hl) as [_ Hex]. exact Hex.
  - revert s H. induction n as [|n IH]; intros s H (n' & Hlt & Hq & Hdraw); [lia|].
    apply days_S in H. destruct H as (s1 & H1 & _ & Hd).
    pose proof (days_init_d _ _ _ _ _ H1) as Hd1.
    pose proof (days_init_draw _ _ _ _ _ H1) as Hw.
    apply day_Ret in Hd. simpl in Hd.
    destruct Hd as (_ & _ & _ & _ & _ & Hlight).
    rewrite Hd1, Hw in Hlight. rewrite Hlight. clear Hlight.
    replace (Z.of_nat (S n)) with (Z.of_nat n + 1) in * by lia.
    assert (Hmono1 : Z.of_nat n' / K <= Z.of_nat n / K)
      by (apply Z.div_le_mono; lia).
    assert (Hmono2 : Z.of_nat n / K <= (Z.of_nat n + 1) / K)
      by (apply Z.div_le_mono; lia).
    destruct (Z.eqb_spec (Z.of_nat n mod K) (K - 1)) as [Hlast|Hlast].
    { pose proof (next_window K (Z.of_nat n) HK ltac:(lia) Hlast). lia. }
    unfold observer in *.
    assert (Hsame : (Z.of_nat n + 1) / K = Z.of_nat n / K) by lia.
    rewrite Hsame in Hdraw.
    destruct (Z.eqb_spec (draw N n g) (Z.of_nat n / K mod N)) as [_|Hx];
      [reflexivity|].
    apply (IH s1 H1). exists n'.
    assert (n' <> n) by (intros ->; contradiction).
    split; [lia|]. split; [lia | exact Hdraw].
Qed.

Lemma entry_set_entry_in_range (n : nat) (m : list (list Z)) (i j v : Z) :
  square n m -> (Z.to_nat i < n)%nat -> (Z.to_nat j < n)%nat ->
  entry (set_entry m i j v) (Z.to_nat i) (Z.to_nat j) = v.
Proof.
  intros Hsq Hi Hj. unfold entry, set_entry. rewrite list_lookup_alter_eq.
  destruct (lookup_lt_is_Some_2 m (Z.to_nat i)) as [row Hrow];
    [destruct Hsq as [-> _]; exact Hi|].
  rewrite Hrow. simpl.
  destruct (square_lookup _ _ _ _ Hsq Hrow) as [Hlen _].
  rewrite list_lookup_insert_eq by lia. reflexivity.
Qed.

(** An entry off the diagonal is true exactly when, on some earlier day, its
    row agent visited while its column agent was the observer and had itself
    visited earlier in that window. *)
Lemma seen_iff (N K : Z) (g : gen) (n : nat) (s : state) (i j : nat) :
  2 <= N -> 1 <= K -> days N K n (init N g) = Some s ->
  (i < Z.to_nat N)%nat -> (j < Z.to_nat N)%nat -> i <> j ->
  (entry (seen s) i j = 1 <->
   exists m : nat,
     (m < n)%nat /\ draw N m g = Z.of_nat i /\
     observer N K (Z.of_nat m) = Z.of_nat j /\
     exists m' : nat, (m' < m)%nat /\ Z.of_nat m' / K = Z.of_nat m / K /\
                      draw N m' g = Z.of_nat j).
Proof.
  intros HN HK H Hi Hj Hij. revert s H. induction n as [|n IH]; intros s H.
  - inversion H; subst. simpl. rewrite np_eye_entry by assumption.
    destruct (Nat.eqb_spec i j); [contradiction|]. split; [discriminate|].
    intros (m & Hm & _). lia.
  - pose proof H as HS. apply days_S in H. destruct H as (s1 & H1 & _ & Hd).
    pose proof (days_init_d _ _ _ _ _ H1) as Hd1.
    pose proof (days_init_draw _ _ _ _ _ H1) as Hw.
    pose proof (days_init_square _ _ _ _ _ H1) as Hsq.
    destruct (day_indices_in_range N K s1 ltac:(lia)) as [Hr Hx].
    rewrite Hw in Hr. rewrite Hd1 in Hx.
    split.
    + intros He. destruct (Z.eq_dec (entry (seen s1) i j) 1) as [E1|E1].
      * apply (IH s1 H1) in E1. destruct E1 as (m & Hm & Hrest).
        exists m. split; [lia | exact Hrest].
      * destruct (day_seen_cases _ _ _ _ Hd) as [E|(E & Hl & Hne)];
          [rewrite E in He; contradiction|].
        assert (Hch : entry (seen s) i j <> entry (seen s1) i j) by congruence.
        rewrite E in Hch. apply entry_set_entry_changed in Hch.
        destruct Hch as [Ei Ej]. rewrite Hw in Ei. rewrite Hd1 in Ej.
        exists n. split; [lia|]. split; [lia|]. split; [lia|].
        destruct (light_invariant N K n g s1 HK H1 Hl) as [_ (m' & A & B & C)].
        exists m'. split; [exact A|]. split; [exact B|]. rewrite C. lia.
    + intros (m & Hm & Hdi & Hoj & m' & Hm' & Hq & Hdj).
      destruct (decide (m = n)) as [->|Hmn].
      * assert (Hl : light_on s1 = true).
        { apply (light_on_iff N K g n s1 HK H1). exists m'.
          split; [exact Hm'|]. split; [exact Hq|]. rewrite Hoj. exact Hdj. }
        apply day_Ret in Hd. simpl in Hd.
        destruct Hd as (_ & _ & _ & _ & Hs & _).
        rewrite Hw, Hd1, Hl in Hs.
        destruct (Z.eqb_spec (draw N n g) (observer N K (Z.of_nat n))) as [Ex|_];
          [lia|].
        rewrite Hs.
        replace i with (Z.to_nat (draw N n g)) by lia.
        replace j with (Z.to_nat (observer N K (Z.of_nat n))) by lia.
        apply (entry_set_entry_in_range (Z.to_nat N)); [exact Hsq | lia | lia].
      * eapply day_mono; [exact Hd|]. apply (IH s1 H1).
        exists m. split; [lia|]. split; [exact Hdi|]. split; [exact Hoj|].
        exists m'. auto.
Qed.

End Knowledge.

(** ** Row sums *)

Lemma np_sum_insert_one_le (row : list Z) (j : nat) :
  bits row -> np_sum (<[j := 1]> row) <= np_sum row + 1.
Proof.
  intros Hb. destruct (row !! j) as [v|] eqn:E.
  - rewrite (np_sum_insert _ _ v 1 E). destruct (bits_lookup _ _ _ Hb E); lia.
  - rewrite list_insert_ge by (apply lookup_ge_None; exact E). lia.
Qed.

Lemma row_sums_set_entry (n : nat) (m : list (list Z)) (i j b : Z) :
  square n m -> Forall (fun v => v <= b) (np_sum_axis1 m) ->
  Forall (fun v => v <= b + 1) (np_sum_axis1 (set_entry m i j 1)).
Proof.
  intros Hsq H. rewrite Forall_lookup in H. apply Forall_lookup.
  intros r v. unfold np_sum_axis1, set_entry in *.
  rewrite list_lookup_fmap.
  destruct (decide (r = Z.to_nat i)) as [->|Hne].
  - rewrite list_lookup_alter_eq.
    destruct (m !! Z.to_nat i) as [row|] eqn:E; simpl; [|discriminate].
    intros Hv. inversion Hv; subst v.
    destruct (square_lookup _ _ _ _ Hsq E) as [_ Hb].
    pose proof (np_sum_insert_one_le row (Z.to_nat j) Hb).
    assert (np_sum row <= b); [|lia].
    apply (H (Z.to_nat i)). rewrite list_lookup_fmap, E. reflexivity.
  - rewrite list_lookup_alter_ne by congruence. intros Hv.
    assert (v <= b); [|lia].
    apply (H r). rewrite list_lookup_fmap. exact Hv.
Qed.

Lemma np_sum_concat (m : list (list Z)) :
  np_sum (concat m) = np_sum (np_sum <$> m).
Proof.
  induction m as [|row m IH]; [reflexivity|].
  simpl. rewrite np_sum_app, IH. reflexivity.
Qed.

Lemma np_sum_le_bound (l : list Z) (b : Z) :
  Forall (fun v => v <= b) l -> np_sum l <= Z.of_nat (length l) * b.
Proof.
  induction 1 as [|v l Hv _ IH]; [simpl; lia|].
  unfold np_sum in *. simpl length. simpl foldr. nia.
Qed.

Lemma np_sum_ge_bound (l : list Z) (x : Z) :
  Forall (fun v => 1 <= v) l -> x ∈ l ->
  Z.of_nat (length l) - 1 + x <= np_sum l.
Proof.
  induction 1 as [|v l Hv Hall IH]; intros Hin.
  - inversion Hin.
  - assert (Hlen : Z.of_nat (length l) <= np_sum l).
    { clear IH Hin. induction Hall as [|w l Hw _ IHl]; [simpl; lia|].
      unfold np_sum in *. simpl length. simpl foldr. lia. }
    unfold np_sum in *. simpl length. simpl foldr.
    apply elem_of_cons in Hin. destruct Hin as [->|Hin]; [lia|].
    specialize (IH Hin). lia.
Qed.

Lemma bits_sum_ge_entry (row : list Z) (i : nat) :
  bits row -> row !! i = Some 1 -> 1 <= np_sum row.
Proof.
  intros Hb. revert i. induction Hb as [|v row Hv Hrow IH]; intros [|i] Hi;
    simpl in Hi; try discriminate.
  - inversion Hi; subst.
    assert (0 <= np_sum row).
    { clear IH. induction Hrow as [|w l Hw _ IHl]; [simpl; lia|].
      unfold np_sum in *. simpl. lia. }
    unfold np_sum in *. simpl. lia.
  - specialize (IH i Hi). unfold np_sum in *. simpl. lia.
Qed.

Section RowSums.
Context {P : PRNG}.

(** While the trial runs no row sum passes [N - 1]: the test for equality
    with [N - 1] cannot be stepped over. *)
Lemma row_sums_bounded (N K : Z) (g : gen) (n : nat) (s : state) :
  2 <= N -> days N K n (init N g) = Some s ->
  Forall (fun v => v <= N - 1) (np_sum_axis1 (seen s)).
Proof.
  intros HN. revert s. induction n as [|n IH]; intros s H.
  - inversion H; subst. simpl. rewrite np_eye_row_sums.
    apply Forall_replicate. lia.
  - apply days_S in H. destruct H as (s1 & H1 & Ht & Hd).
    pose proof (IH s1 H1) as Hle.
    pose proof (days_init_square _ _ _ _ _ H1) as Hsq.
    assert (Hle2 : Forall (fun v => v <= N - 2) (np_sum_axis1 (seen s1))).
    { unfold loop_test in Ht.
      destruct (np_max (np_sum_axis1 (seen s1))) as [m|] eqn:Em; [|discriminate].
      destruct (np_max_spec _ _ Em) as [Hall Hin].
      inversion Ht as [Hneq].
      destruct (Z.eqb_spec m (N - 1)) as [|Hm]; [discriminate|].
      rewrite Forall_forall in Hle. pose proof (Hle m Hin).
      eapply Forall_impl; [exact Hall|]. simpl. intros; lia. }
    destruct (day_seen_cases _ _ _ _ Hd) as [->|[-> _]]; [exact Hle|].
    replace (N - 1) with (N - 2 + 1) by lia.
    eapply row_sums_set_entry; eassumption.
Qed.

(** With rotation period 1 the light is off at the start of every day and
    the matrix stays the identity. *)
Lemma period_one_invariant (N : Z) (g : gen) (n : nat) (s : state) :
  days N 1 n (init N g) = Some s ->
  light_on s = false /\ seen s = np_eye N.
Proof.
  revert s. induction n as [|n IH]; intros s H.
  - inversion H; subst. split; reflexivity.
  - apply days_S in H. destruct H as (s1 & H1 & _ & Hd).
    destruct (IH s1 H1) as [Hl Hs].
    apply day_Ret in Hd. simpl in Hd.
    destruct Hd as (_ & _ & _ & _ & Hseen & Hlight).
    rewrite Z.mod_1_r in Hlight. simpl in Hlight.
    rewrite Hl in Hseen. split; [exact Hlight|].
    rewrite Hseen, Hs. destruct (_ =? _); reflexivity.
Qed.

(** The loop itself raises nothing when the matrix is not empty and the
    rotation period is not 0. *)
Lemma while_loop_no_raise (N K : Z) (n : nat) (fuel : nat) (s : state)
    (e : exception) :
  K <> 0 -> (0 < n)%nat -> square n (seen s) ->
  while_loop N K fuel s <> Raise e.
Proof.
  intros HK Hn. revert s. induction fuel as [|fuel IH]; intros s Hsq.
  - simpl. unfold loop_test.
    destruct (seen s) as [|row m] eqn:E;
      [destruct Hsq as [Hl _]; simpl in Hl; lia|].
    simpl. destruct (negb _); discriminate.
  - simpl. unfold loop_test.
    destruct (seen s) as [|row m] eqn:E;
      [destruct Hsq as [Hl _]; simpl in Hl; lia|].
    simpl. destruct (negb _); simpl; [|discriminate].
    destruct (day_total N K s HK) as [s' Hd]. rewrite Hd. simpl.
    apply IH. eapply day_square; [exact Hd|]. rewrite E. exact Hsq.
Qed.

(** With a negative rotation period the reset of the light is never
    reached. *)
Lemma negative_period_keeps_light (N K : Z) (g : gen) (n : nat)
    (s s' : state) :
  K < 0 -> days N K n (init N g) = Some s ->
  days N K (S n) (init N g) = Some s' ->
  light_on s = true -> light_on s' = true.
Proof.
  intros HK Hs Hs' Hl. apply days_S in Hs'. destruct Hs' as (s1 & H1 & _ & Hd).
  rewrite Hs in H1. inversion H1; subst s1.
  apply day_Ret in Hd. simpl in Hd. destruct Hd as (_ & _ & _ & _ & _ & Hlight).
  rewrite Hlight, Hl.
  pose proof (Z.mod_neg_bound (d s) K HK).
  destruct (Z.eqb_spec (d s mod K) (K - 1)) as [|_]; [lia|].
  destruct (_ =? _); reflexivity.
Qed.

End RowSums.

(** ** Runs that return *)

Section Returns.
Context {P : PRNG}.

(** A run that returns stopped after some number of days with the assertion
    satisfied; it had three agents at least, a rotation period other than 0,
    and one draw was made on each of its days. *)
Lemma do_simulation_Ret_days (g : gen) (seed : option Z) (N K : Z)
    (fuel : nat) (o : outcome) (g' : gen) :
  do_simulation g seed N K fuel = Ret (o, g') ->
  exists (n : nat) (s : state),
    days N K n (init N (seed_generator seed g)) = Some s /\
    loop_test N s = Ret false /\
    np_sum (visited_warden s) = N /\
    res_d o = Z.of_nat n /\ res_seen o = seen s /\
    g' = gen_after N n (seed_generator seed g) /\
    3 <= N /\ K <> 0.
Proof.
  intros H. apply do_simulation_Ret in H.
  destruct H as (s & Hw & Hv & Hd & Hseen & Hg & _).
  pose proof Hw as Hw0.
  apply while_loop_Ret in Hw. destruct Hw as (n & _ & Hn & Ht).
  exists n, s. split; [exact Hn|]. split; [exact Ht|]. split; [exact Hv|].
  split; [rewrite Hd; eapply days_init_d; exact Hn|]. split; [exact Hseen|].
  split; [rewrite Hg; apply days_rng in Hn; exact Hn|].
  pose proof (days_init_square _ _ _ _ _ Hn) as Hsq.
  pose proof (loop_test_Ret_pos _ _ _ _ Hsq Ht) as Hpos.
  destruct n as [|n].
  - exfalso. inversion Hn; subst s. apply loop_test_false in Ht. simpl in Ht.
    rewrite np_max_eye in Ht by lia. inversion Ht as [HN].
    assert (N = 2) as -> by lia. simpl in Hv. discriminate.
  - destruct (days_prefix _ _ _ 1 _ _ Hn ltac:(lia)) as (s1 & H1).
    apply days_S in H1. destruct H1 as (s0 & E & Ht0 & Hd0).
    inversion E; subst s0. apply day_Ret in Hd0. simpl in Hd0.
    destruct Hd0 as (HK & _). split; [|exact HK].
    rewrite loop_test_init in Ht0 by lia. inversion Ht0 as [Hneq].
    destruct (Z.eqb_spec 1 (N - 1)) as [|HN2]; [discriminate|].
    destruct (decide (N = 1)) as [->|HN1]; [|lia].
    rewrite while_loop_one_agent in Hw0; [discriminate | exact HK | reflexivity].
Qed.

Lemma check_seed_cases (seed : option Z) :
  check_seed seed = Ret tt \/ check_seed seed = Raise ValueError.
Proof.
  destruct seed as [s|]; simpl; [|left; reflexivity].
  destruct (s =? 0); [left; reflexivity|].
  destruct (seed_accepted s); [left | right]; reflexivity.
Qed.

(** The exceptions of a run with at least one agent and a rotation period
    other than 0: the [ValueError] of a rejected seed, and the failed
    assertion. *)
Lemma do_simulation_Raise (g : gen) (seed : option Z) (N K : Z) (fuel : nat)
    (e : exception) :
  1 <= N -> K <> 0 -> do_simulation g seed N K fuel = Raise e ->
  (check_seed seed = Ret tt /\ e = AssertionError) \/
  (check_seed seed = Raise ValueError /\ e = ValueError).
Proof.
  intros HN HK. unfold do_simulation.
  destruct (check_seed_cases seed) as [Hc|Hc]; rewrite Hc; cbn [bind].
  - intros H. left. split; [reflexivity|]. revert H.
    destruct (Z.ltb_spec N 0) as [|_]; [lia|].
    destruct (while_loop N K fuel _) as [s|e0|] eqn:Hw; simpl.
    + unfold finish. destruct (_ =? _); [discriminate|].
      intros H; inversion H; reflexivity.
    + exfalso. apply (while_loop_no_raise N K (Z.to_nat N) fuel _ e0 HK) in Hw;
        [exact Hw | lia | apply square_np_eye].
    + discriminate.
  - intros H. right. split; [reflexivity|]. inversion H. reflexivity.
Qed.

(** The rows of the returned matrix: each holds its diagonal entry, none
    more than [N - 1] entries, one exactly [N - 1]. *)
Lemma returned_true_entries (g : gen) (seed : option Z) (N K : Z)
    (fuel : nat) (o : outcome) (g' : gen) :
  do_simulation g seed N K fuel = Ret (o, g') ->
  2 * N - 2 <= count_true (concat (res_seen o)) <= N * (N - 1).
Proof.
  intros H. apply do_simulation_Ret_days in H.
  destruct H as (n & s & Hn & Ht & _ & _ & Hseen & _ & HN & _).
  rewrite Hseen.
  pose proof (days_init_square _ _ _ _ _ Hn) as Hsq.
  rewrite <- (bits_sum_count _ (square_concat_bits _ _ Hsq)).
  rewrite np_sum_concat. fold (np_sum_axis1 (seen s)).
  apply loop_test_false in Ht. destruct (np_max_spec _ _ Ht) as [Hle Hin].
  assert (Hlen : length (np_sum_axis1 (seen s)) = Z.to_nat N).
  { unfold np_sum_axis1. rewrite length_fmap. destruct Hsq as [Hl _]. exact Hl. }
  split.
  - assert (Hge : Forall (fun v => 1 <= v) (np_sum_axis1 (seen s))).
    { apply Forall_lookup. intros i v Hi. unfold np_sum_axis1 in Hi.
      rewrite list_lookup_fmap in Hi.
      destruct (seen s !! i) as [row|] eqn:Hrow; [|discriminate].
      simpl in Hi. inversion Hi; subst v.
      assert (Hlt : (i < Z.to_nat N)%nat).
      { destruct Hsq as [Hl _]. rewrite <- Hl. apply lookup_lt_is_Some. eauto. }
      pose proof (days_diagonal _ _ _ _ _ _ Hn Hlt) as Hdiag.
      unfold entry in Hdiag. rewrite Hrow in Hdiag. simpl in Hdiag.
      destruct (square_lookup _ _ _ _ Hsq Hrow) as [_ Hb].
      apply (bits_sum_ge_entry row i Hb).
      destruct (row !! i) as [v|]; simpl in Hdiag; [congruence | discriminate]. }
    pose proof (np_sum_ge_bound _ _ Hge Hin) as Hb. rewrite Hlen in Hb. lia.
  - pose proof (np_sum_le_bound _ _ Hle) as Hb. rewrite Hlen in Hb. nia.
Qed.

End Returns.

Lemma percentage_strict_bounds (c S : Z) :
  0 < c -> c < S ->
  (0 < 100 * inject_Z c / inject_Z S < 100)%Q.
Proof.
  intros Hc HS.
  assert (HSq : (0 < inject_Z S)%Q).
  { unfold Qlt, inject_Z. simpl. lia. }
  split.
  - apply Qlt_shift_div_l; [exact HSq|].
    unfold Qlt, Qmult, inject_Z. simpl. lia.
  - apply Qlt_shift_div_r; [exact HSq|].
    unfold Qlt, Qmult, inject_Z. simpl. lia.
Qed.

(** ** The frames of [show_steps] *)

Lemma frames_S (K : Z) (show_steps : bool) (n : nat) :
  frames K show_steps (S n) =
  frames K show_steps n ++
  match frame_of_day K show_steps (Z.of_nat n) with
  | Some f => [f]
  | None => []
  end.
Proof.
  unfold frames. rewrite seq_S, fmap_app, omap_app. simpl.
  destruct (frame_of_day K show_steps (Z.of_nat n)); reflexivity.
Qed.

Lemma windows_begun_step (K n : Z) :
  1 <= K -> 0 <= n ->
  (n mod K = 0 ->
   (n + K - 1) / K = n / K /\ (n + 1 + K - 1) / K = n / K + 1) /\
  (n mod K <> 0 -> (n + 1 + K - 1) / K = (n + K - 1) / K).
Proof.
  intros HK Hn.
  pose proof (Z.div_mod n K ltac:(lia)) as E.
  pose proof (Z.mod_pos_bound n K ltac:(lia)) as B.
  split.
  - intros H0. split.
    + symmetry. apply (Z.div_unique (n + K - 1) K (n / K) (K - 1)); lia.
    + symmetry. apply (Z.div_unique (n + 1 + K - 1) K (n / K + 1) 0); lia.
  - intros Hne.
    rewrite <- (Z.div_unique (n + 1 + K - 1) K (n / K + 1) (n mod K))
      by lia.
    apply (Z.div_unique (n + K - 1) K (n / K + 1) (n mod K - 1)); lia.
Qed.

(** ** How a sweep ends *)

Section SweepEnds.
Context {P : PRNG}.

Lemma final_generator_Raise {A : Type} (m : run (A * gen)) (e : exception) :
  final_generator m = Raise e <-> m = Raise e.
Proof.
  unfold final_generator. destruct m as [r| |]; simpl; split;
    intros H; try discriminate; inversion H; reflexivity.
Qed.

Lemma final_generator_Ret {A : Type} (m : run (A * gen)) (g : gen) :
  final_generator m = Ret g <-> exists a, m = Ret (a, g).
Proof.
  unfold final_generator. destruct m as [[a g0]| |]; simpl; split.
  - intros H; inversion H; subst. eauto.
  - intros [a0 H]; inversion H; subst. reflexivity.
  - discriminate.
  - intros [a0 H]; discriminate.
  - discriminate.
  - intros [a0 H]; discriminate.
Qed.

Lemma final_generator_run_trials_cons (fuel : nat) (K : Z) (Ks : list Z)
    (g : gen) :
  final_generator (run_trials fuel (K :: Ks) g) =
  let* g1 := final_generator (do_simulation g None 100 K fuel) in
  final_generator (run_trials fuel Ks g1).
Proof.
  simpl. unfold final_generator.
  destruct (do_simulation g None 100 K fuel) as [[o g1]| |]; simpl;
    try reflexivity.
  destruct (run_trials fuel Ks g1) as [[ds g2]| |]; reflexivity.
Qed.

Lemma final_generator_run_trials_app (fuel : nat) (l1 l2 : list Z) (g : gen) :
  final_generator (run_trials fuel (l1 ++ l2) g) =
  let* g1 := final_generator (run_trials fuel l1 g) in
  final_generator (run_trials fuel l2 g1).
Proof.
  revert g. induction l1 as [|K l1 IH]; intros g; [reflexivity|].
  change ((K :: l1) ++ l2) with (K :: (l1 ++ l2)).
  rewrite !final_generator_run_trials_cons.
  destruct (final_generator (do_simulation g None 100 K fuel)) as [g1| |];
    simpl; try reflexivity.
  apply IH.
Qed.

(** The inner loop ends as its trials, run one after the other, end. *)
Lemma final_generator_for_trials (fuel : nat) (K : Z) (i : nat)
    (ts : list nat) (trials : list (list Q)) (g : gen) :
  final_generator (for_trials fuel K i ts trials g) =
  final_generator (run_trials fuel (replicate (length ts) K) g).
Proof.
  revert trials g. induction ts as [|t ts IH]; intros trials g; [reflexivity|].
  simpl length. simpl replicate. rewrite final_generator_run_trials_cons.
  simpl for_trials.
  destruct (do_simulation g None 100 K fuel) as [[o g1]| |]; simpl;
    try reflexivity.
  apply IH.
Qed.

(** The outer loop ends as the trials of all its batches end. *)
Lemma final_generator_for_Ks (fuel : nat) (NTrials : Z)
    (iKs : list (nat * Z)) (trials : list (list Q)) (g : gen) :
  final_generator (for_Ks fuel NTrials iKs trials g) =
  final_generator
    (run_trials fuel (schedule (Z.to_nat NTrials) (snd <$> iKs)) g).
Proof.
  revert trials g. induction iKs as [|[i K] iKs IH]; intros trials g;
    [reflexivity|].
  unfold schedule. simpl fmap. simpl concat.
  rewrite final_generator_run_trials_app. simpl for_Ks.
  pose proof (final_generator_for_trials fuel K i (seq 0 (Z.to_nat NTrials))
                trials g) as E.
  rewrite length_seq in E. rewrite <- E.
  destruct (for_trials fuel K i (seq 0 (Z.to_nat NTrials)) trials g)
    as [[t1 g1]| |]; simpl; try reflexivity.
  apply IH.
Qed.

Lemma final_generator_vary_parameters (g : gen) (NTrials : Z) (Ks : list Z)
    (fuel : nat) :
  0 <= NTrials ->
  final_generator (vary_parameters g NTrials Ks fuel) =
  final_generator (run_trials fuel (schedule (Z.to_nat NTrials) Ks) g).
Proof.
  intros HN. unfold vary_parameters, enumerate.
  destruct (Z.ltb_spec NTrials 0) as [|_]; [lia|].
  rewrite final_generator_for_Ks. rewrite snd_zip; [reflexivity|].
  rewrite length_seq. lia.
Qed.

(** Every trial of a sequence that returns had a rotation period other
    than 0. *)
Lemma run_trials_Ret_nonzero (fuel : nat) (l : list Z) (g : gen)
    (r : list Z * gen) :
  run_trials fuel l g = Ret r -> Forall (fun K => K <> 0) l.
Proof.
  revert g r. induction l as [|K l IH]; intros g r H; [constructor|].
  simpl in H.
  destruct (do_simulation g None 100 K fuel) as [[o g1]| |] eqn:E;
    simpl in H; try discriminate.
  destruct (run_trials fuel l g1) as [r1| |] eqn:E1; simpl in H;
    try discriminate.
  constructor; [|eapply IH; exact E1].
  apply do_simulation_Ret_days in E.
  destruct E as (n & s & _ & _ & _ & _ & _ & _ & _ & HK). exact HK.
Qed.

(** A sequence of trials raises the exception of one of its trials. *)
Lemma run_trials_Raise (fuel : nat) (l : list Z) (g : gen) (e : exception) :
  run_trials fuel l g = Raise e ->
  exists (K : Z) (g0 : gen),
    K ∈ l /\ do_simulation g0 None 100 K fuel = Raise e.
Proof.
  revert g. induction l as [|K l IH]; intros g H; [discriminate|].
  simpl in H.
  destruct (do_simulation g None 100 K fuel) as [[o g1]| |] eqn:E;
    simpl in H; try discriminate.
  - destruct (run_trials fuel l g1) as [r1| |] eqn:E1; simpl in H;
      try discriminate.
    inversion H; subst. destruct (IH g1 E1) as (K0 & g0 & Hin & Hr).
    exists K0, g0. split; [right; exact Hin | exact Hr].
  - inversion H; subst. exists K, g. split; [left | exact E].
Qed.

Lemma elem_of_schedule (n : nat) (Ks : list Z) (K : Z) :
  K ∈ schedule n Ks <-> K ∈ Ks /\ n <> 0%nat.
Proof.
  unfold schedule. induction Ks as [|K0 Ks IH]; simpl.
  - split; [intros H; inversion H | intros [H _]; inversion H].
  - rewrite elem_of_app, IH, elem_of_replicate, elem_of_cons. tauto.
Qed.

(** With no trial for each period, the loops run no trial at all. *)
Lemma for_Ks_no_trials (fuel : nat) (iKs : list (nat * Z))
    (trials : list (list Q)) (g : gen) :
  for_Ks fuel 0 iKs trials g = Ret (trials, g).
Proof.
  induction iKs as [|[i K] iKs IH]; [reflexivity|]. simpl. exact IH.
Qed.

End SweepEnds.

(** * Properties of the simulation beyond the claims *)

(** X1: at every day of a trial, the visitation record marks an agent
    exactly when that agent was drawn on an earlier day, and the number of
    agents marked is at most the number of days elapsed. *)
Theorem visited_iff_drawn `{P : PRNG} (N K : Z) (g : gen) (n : nat)
    (s : state) :
  1 <= N -> days N K n (init N g) = Some s ->
  (forall i : nat, (i < Z.to_nat N)%nat ->
     (visited_warden s !! i = Some 1 <->
      exists m : nat, (m < n)%nat /\ draw N m g = Z.of_nat i)) /\
  np_sum (visited_warden s) <= Z.of_nat n.
Proof.
  intros HN H. split.
  - destruct (visited_invariant N K g n s HN H) as (_ & _ & Hiff). exact Hiff.
  - apply (visited_sum_le_days N K g n s HN H).
Qed.

Lemma visited_iff_drawn_witness :
  (forall i : nat, (i < Z.to_nat 3)%nat ->
     (([1; 0; 1] : list Z) !! i = Some 1 <->
      exists m : nat, (m < 2)%nat /\
        draw (P := replay) 3 m [2; 0; 1] = Z.of_nat i)) /\
  np_sum [1; 0; 1] <= Z.of_nat 2.
Proof.
  apply (visited_iff_drawn (P := replay) 3 10 [2; 0; 1] 2
           (@State replay (np_eye 3) [1; 0; 1] 2 true [1]));
    [lia | vm_compute; reflexivity].
Defined.

(** X2: for a rotation period of at least 1, the light is on at the start
    of a day exactly when the observer of that day was drawn as visitor on
    an earlier day of the same rotation window. *)
Theorem light_on_iff_observer_visited `{P : PRNG} (N K : Z) (g : gen)
    (n : nat) (s : state) :
  1 <= K -> days N K n (init N g) = Some s ->
  (light_on s = true <->
   exists n' : nat, (n' < n)%nat /\ Z.of_nat n' / K = Z.of_nat n / K /\
                    draw N n' g = observer N K (Z.of_nat n)).
Proof. apply light_on_iff. Qed.

Lemma light_on_iff_observer_visited_witness :
  true = true <->
  exists n' : nat, (n' < 2)%nat /\ Z.of_nat n' / 10 = Z.of_nat 2 / 10 /\
     draw (P := replay) 3 n' [2; 0; 1] = observer 3 10 (Z.of_nat 2).
Proof.
  apply (light_on_iff_observer_visited (P := replay) 3 10 [2; 0; 1] 2
           (@State replay (np_eye 3) [1; 0; 1] 2 true [1]));
    [lia | vm_compute; reflexivity].
Defined.

(** X3: for N >= 2 and K >= 1, an entry [seen[i][j]] off the diagonal is
    true exactly when on some earlier day agent [i] visited while [j] was the
    observer, [j] having visited on an earlier day of that window. *)
Theorem seen_entry_iff `{P : PRNG} (N K : Z) (g : gen) (n : nat) (s : state)
    (i j : nat) :
  2 <= N -> 1 <= K -> days N K n (init N g) = Some s ->
  (i < Z.to_nat N)%nat -> (j < Z.to_nat N)%nat -> i <> j ->
  (entry (seen s) i j = 1 <->
   exists m : nat,
     (m < n)%nat /\ draw N m g = Z.of_nat i /\
     observer N K (Z.of_nat m) = Z.of_nat j /\
     exists m' : nat, (m' < m)%nat /\ Z.of_nat m' / K = Z.of_nat m / K /\
                      draw N m' g = Z.of_nat j).
Proof. apply seen_iff. Qed.

Lemma seen_entry_iff_witness :
  entry [[1; 0; 0]; [1; 1; 0]; [0; 0; 1]] 1 0 = 1 <->
  exists m : nat,
    (m < 3)%nat /\ draw (P := replay) 3 m [2; 0; 1] = Z.of_nat 1 /\
    observer 3 10 (Z.of_nat m) = Z.of_nat 0 /\
    exists m' : nat, (m' < m)%nat /\ Z.of_nat m' / 10 = Z.of_nat m / 10 /\
                     draw (P := replay) 3 m' [2; 0; 1] = Z.of_nat 0.
Proof.
  apply (seen_entry_iff (P := replay) 3 10 [2; 0; 1] 3
           (@State replay [[1; 0; 0]; [1; 1; 0]; [0; 0; 1]] [1; 1; 1] 3 true [])
           1 0);
    [lia | lia | vm_compute; reflexivity | simpl; lia | simpl; lia | lia].
Defined.

(** X4: the knowledge recorded is sound: when [seen[i][j]] is true for two
    different agents, both [i] and [j] are marked in the visitation
    record. *)
Theorem seen_implies_visited `{P : PRNG} (N K : Z) (g : gen) (n : nat)
    (s : state) (i j : nat) :
  2 <= N -> 1 <= K -> days N K n (init N g) = Some s ->
  (i < Z.to_nat N)%nat -> (j < Z.to_nat N)%nat -> i <> j ->
  entry (seen s) i j = 1 ->
  visited_warden s !! i = Some 1 /\ visited_warden s !! j = Some 1.
Proof.
  intros HN HK H Hi Hj Hij He.
  apply (seen_iff N K g n s i j HN HK H Hi Hj Hij) in He.
  destruct He as (m & Hm & Hdi & _ & m' & Hm' & _ & Hdj).
  destruct (visited_invariant N K g n s ltac:(lia) H) as (_ & _ & Hiff).
  split.
  - apply (Hiff i Hi). exists m. split; [exact Hm | exact Hdi].
  - apply (Hiff j Hj). exists m'. split; [lia | exact Hdj].
Qed.

Lemma seen_implies_visited_witness :
  ([1; 1; 1] : list Z) !! 1%nat = Some 1 /\
  ([1; 1; 1] : list Z) !! 0%nat = Some 1.
Proof.
  apply (seen_implies_visited (P := replay) 3 10 [2; 0; 1] 3
           (@State replay [[1; 0; 0]; [1; 1; 0]; [0; 0; 1]] [1; 1; 1] 3 true [])
           1 0);
    [lia | lia | vm_compute; reflexivity | simpl; lia | simpl; lia | lia
    | vm_compute; reflexivity].
Defined.

(** X5: for N >= 2, at every day of a trial no row of [seen] sums to more
    than [N - 1]: the loop test, an equality with [N - 1], is never stepped
    over. *)
Theorem row_sums_never_exceed `{P : PRNG} (N K : Z) (g : gen) (n : nat)
    (s : state) :
  2 <= N -> days N K n (init N g) = Some s ->
  forall (i : nat) (row : list Z),
    seen s !! i = Some row -> np_sum row <= N - 1.
Proof.
  intros HN H i row Hrow.
  pose proof (row_sums_bounded N K g n s HN H) as Hall.
  rewrite Forall_lookup in Hall. apply (Hall i).
  unfold np_sum_axis1. rewrite list_lookup_fmap, Hrow. reflexivity.
Qed.

Lemma row_sums_never_exceed_witness : np_sum [1; 1; 0] <= 3 - 1.
Proof.
  apply (row_sums_never_exceed (P := replay) 3 10 [2; 0; 1] 3
           (@State replay [[1; 0; 0]; [1; 1; 0]; [0; 0; 1]] [1; 1; 1] 3 true [])
           ltac:(lia) ltac:(vm_compute; reflexivity) 1%nat [1; 1; 0]).
  reflexivity.
Defined.

(** X6: a run of [do_simulation] that returns had at least three agents and
    a rotation period other than 0, lasted at least [N] days, and drew
    exactly one random number on each of its days. *)
Theorem returned_run_facts `{P : PRNG} (g : gen) (seed : option Z) (N K : Z)
    (fuel : nat) (o : outcome) (g' : gen) :
  do_simulation g seed N K fuel = Ret (o, g') ->
  3 <= N /\ K <> 0 /\ N <= res_d o /\
  g' = gen_after N (Z.to_nat (res_d o)) (seed_generator seed g).
Proof.
  intros H. apply do_simulation_Ret_days in H.
  destruct H as (n & s & Hn & _ & Hv & Hd & _ & Hg & HN & HK).
  split; [exact HN|]. split; [exact HK|].
  pose proof (visited_sum_le_days N K _ n s ltac:(lia) Hn) as Hle.
  split; [lia|]. rewrite Hd, Nat2Z.id. exact Hg.
Qed.

Lemma returned_run_facts_witness :
  3 <= 3 /\ 10 <> 0 /\ 3 <= 3 /\
  ([] : list Z) =
    gen_after (P := replay) 3 (Z.to_nat 3)
      (seed_generator (P := replay) None [2; 0; 1]).
Proof.
  apply (returned_run_facts (P := replay) [2; 0; 1] None 3 10 10
           (Outcome 3 (400 # 9) [[1; 0; 0]; [1; 1; 0]; [0; 0; 1]]) []).
  vm_compute. reflexivity.
Defined.

(** X7: in the matrix returned, between [2N - 2] and [N (N - 1)] entries
    are true, so the coverage returned is strictly between 0 and 100. *)
Theorem coverage_strictly_between `{P : PRNG} (g : gen) (seed : option Z)
    (N K : Z) (fuel : nat) (o : outcome) (g' : gen) :
  do_simulation g seed N K fuel = Ret (o, g') ->
  2 * N - 2 <= count_true (concat (res_seen o)) <= N * (N - 1) /\
  (0 < res_coverage o < 100)%Q.
Proof.
  intros H. pose proof (returned_true_entries _ _ _ _ _ _ _ H) as Hcount.
  split; [exact Hcount|].
  pose proof H as H0. apply do_simulation_Ret_days in H0.
  destruct H0 as (n & s & Hn & _ & _ & _ & Hseen & _ & HN & _).
  apply do_simulation_Ret in H.
  destruct H as (s' & _ & _ & _ & Hseen' & _ & Hcov).
  pose proof (days_init_square _ _ _ _ _ Hn) as Hsq.
  assert (Hseq : seen s' = seen s) by congruence.
  rewrite Hcov, Hseq.
  unfold np_sum2, np_size.
  rewrite (bits_sum_count _ (square_concat_bits _ _ Hsq)).
  rewrite (square_concat_length _ _ Hsq).
  rewrite Hseen in Hcount.
  apply percentage_strict_bounds; [lia | nia].
Qed.

Lemma coverage_strictly_between_witness :
  2 * 3 - 2 <= count_true (concat [[1; 0; 0]; [1; 1; 0]; [0; 0; 1]])
    <= 3 * (3 - 1) /\
  (0 < 400 # 9 < 100)%Q.
Proof.
  apply (coverage_strictly_between (P := replay) [2; 0; 1] None 3 10 10
           (Outcome 3 (400 # 9) [[1; 0; 0]; [1; 1; 0]; [0; 0; 1]]) []).
  vm_compute. reflexivity.
Defined.

(** X8: with rotation period 1, three agents or more and a seed that
    [np.random.seed] accepts (or none), the light is reset at the end of
    every day, nothing is ever recorded, and [do_simulation] never returns
    and never raises, whatever the draws. *)
Theorem period_one_never_terminates `{P : PRNG} (g : gen) (seed : option Z)
    (N : Z) (fuel : nat) :
  3 <= N -> check_seed seed = Ret tt ->
  do_simulation g seed N 1 fuel = OutOfFuel /\
  forall (n : nat) (s : state),
    days N 1 n (init N (seed_generator seed g)) = Some s ->
    light_on s = false /\ seen s = np_eye N.
Proof.
  intros HN Hc. split.
  - unfold do_simulation. rewrite Hc. cbn [bind].
    destruct (Z.ltb_spec N 0) as [|_]; [lia|].
    rewrite while_loop_period_one; [reflexivity | exact HN | reflexivity
                                   | reflexivity].
  - intros n s H. apply (period_one_invariant N _ n s H).
Qed.

Lemma period_one_never_terminates_witness :
  do_simulation (P := replay) [2; 0; 1] (Some 42) 3 1 10 = OutOfFuel /\
  forall (n : nat) (s : state),
    days (P := replay) 3 1 n (init 3 (seed_generator (Some 42) [2; 0; 1]))
      = Some s ->
    light_on s = false /\ seen s = np_eye 3.
Proof.
  apply (period_one_never_terminates (P := replay) [2; 0; 1] (Some 42) 3 10);
    [lia | reflexivity].
Defined.

(** X9: with at least one agent and a rotation period other than 0,
    [do_simulation] can raise only the [ValueError] of a seed that
    [np.random.seed] rejects and, for any other seed, the failed
    assertion. *)
Theorem only_assertion_can_fail `{P : PRNG} (g : gen) (seed : option Z)
    (N K : Z) (fuel : nat) (e : exception) :
  1 <= N -> K <> 0 -> do_simulation g seed N K fuel = Raise e ->
  (check_seed seed = Ret tt /\ e = AssertionError) \/
  (check_seed seed = Raise ValueError /\ e = ValueError).
Proof. apply do_simulation_Raise. Qed.

Lemma only_assertion_can_fail_witness :
  (check_seed (Some (-1)) = Ret tt /\ ValueError = AssertionError) \/
  (check_seed (Some (-1)) = Raise ValueError /\ ValueError = ValueError).
Proof.
  apply (only_assertion_can_fail (P := replay) [0; 1] (Some (-1)) 3 10 10
           ValueError); [lia | lia | vm_compute; reflexivity].
Defined.

(** X10: with a negative rotation period the test [d%K == K-1] never
    holds: once the light is on it stays on from one day to the next. *)
Theorem negative_period_never_resets `{P : PRNG} (N K : Z) (g : gen)
    (n : nat) (s s' : state) :
  K < 0 -> days N K n (init N g) = Some s ->
  days N K (S n) (init N g) = Some s' ->
  light_on s = true -> light_on s' = true.
Proof. apply negative_period_keeps_light. Qed.

Lemma negative_period_never_resets_witness :
  light_on (@State replay [[1; 0; 0]; [0; 1; 1]; [0; 0; 1]] [1; 1; 0] 2 true [])
  = true.
Proof.
  apply (negative_period_never_resets (P := replay) 3 (-1) [0; 1] 1
           (@State replay (np_eye 3) [1; 0; 0] 1 true [1])
           (@State replay [[1; 0; 0]; [0; 1; 1]; [0; 0; 1]] [1; 1; 0] 2 true []));
    [lia | vm_compute; reflexivity | vm_compute; reflexivity | reflexivity].
Defined.

(** X11: a sweep with no trial for each period runs no simulation: it
    returns the empty table and leaves the generator as it was, whatever the
    rotation periods, a period 0 included. *)
Theorem sweep_without_trials `{P : PRNG} (g : gen) (Ks : list Z)
    (fuel : nat) :
  vary_parameters g 0 Ks fuel = Ret ([], g).
Proof. unfold vary_parameters. simpl. apply for_Ks_no_trials. Qed.

(** X12: a sweep with at least one trial for each period that runs to its
    end had no rotation period 0. *)
Theorem completed_sweep_has_no_period_zero `{P : PRNG} (g : gen)
    (NTrials : Z) (Ks : list Z) (fuel : nat) (trials : list (list Q))
    (g' : gen) :
  1 <= NTrials ->
  vary_parameters g NTrials Ks fuel = Ret (trials, g') ->
  Forall (fun K => K <> 0) Ks.
Proof.
  intros HN H.
  assert (Hf : final_generator (vary_parameters g NTrials Ks fuel) = Ret g').
  { apply final_generator_Ret. eauto. }
  rewrite final_generator_vary_parameters in Hf by lia.
  apply final_generator_Ret in Hf. destruct Hf as [ds Hrun].
  apply run_trials_Ret_nonzero in Hrun. rewrite Forall_forall in Hrun.
  apply Forall_forall. intros K HK. apply Hrun.
  apply elem_of_schedule. split; [exact HK | lia].
Qed.

Lemma completed_sweep_has_no_period_zero_witness :
  Forall (fun K : Z => K <> 0) [3].
Proof.
  apply (completed_sweep_has_no_period_zero (P := replay) sweep_draws 1 [3]
           300 [[293 # 365]] [99]); [lia | vm_compute; reflexivity].
Defined.

(** X13: a sweep stops at the first trial that raises: when the trials
    before it return and it raises [e], the sweep raises [e]. *)
Theorem sweep_stops_at_first_failure `{P : PRNG} (g g1 : gen) (NTrials : Z)
    (Ks l1 l2 : list Z) (K : Z) (fuel : nat) (ds : list Z) (e : exception) :
  0 <= NTrials ->
  schedule (Z.to_nat NTrials) Ks = l1 ++ K :: l2 ->
  run_trials fuel l1 g = Ret (ds, g1) ->
  do_simulation g1 None 100 K fuel = Raise e ->
  vary_parameters g NTrials Ks fuel = Raise e.
Proof.
  intros HN Hsch Hrun Hfail. apply final_generator_Raise.
  rewrite final_generator_vary_parameters by exact HN.
  rewrite Hsch, final_generator_run_trials_app.
  assert (E : final_generator (run_trials fuel l1 g) = Ret g1).
  { apply final_generator_Ret. eauto. }
  rewrite E. cbn [bind]. rewrite final_generator_run_trials_cons.
  rewrite Hfail. reflexivity.
Qed.

Lemma sweep_stops_at_first_failure_witness :
  vary_parameters (P := replay) sweep_draws 1 [3; 0] 300
  = Raise ZeroDivisionError.
Proof.
  apply (sweep_stops_at_first_failure (P := replay) sweep_draws [99] 1
           [3; 0] [3] [] 0 300 [293] ZeroDivisionError);
    [lia | reflexivity | vm_compute; reflexivity | vm_compute; reflexivity].
Defined.

(** X14: a sweep whose rotation periods are all other than 0 can raise no
    exception but the failed assertion of one of its trials. *)
Theorem sweep_only_assertion_can_fail `{P : PRNG} (g : gen) (NTrials : Z)
    (Ks : list Z) (fuel : nat) (e : exception) :
  0 <= NTrials -> Forall (fun K => K <> 0) Ks ->
  vary_parameters g NTrials Ks fuel = Raise e ->
  e = AssertionError.
Proof.
  intros HN HKs H. apply final_generator_Raise in H.
  rewrite final_generator_vary_parameters in H by exact HN.
  apply final_generator_Raise in H. apply run_trials_Raise in H.
  destruct H as (K & g0 & Hin & Hr).
  apply elem_of_schedule in Hin. destruct Hin as [Hin _].
  rewrite Forall_forall in HKs.
  destruct (do_simulation_Raise g0 None 100 K fuel e ltac:(lia)
              (HKs K Hin) Hr) as [[_ He]|[Hc _]];
    [exact He | discriminate].
Qed.

Lemma sweep_only_assertion_can_fail_witness :
  AssertionError = AssertionError.
Proof.
  apply (sweep_only_assertion_can_fail (P := replay)
           (concat ((fun j => [Z.of_nat j; 99; 99]) <$> seq 0 98)) 1 [3] 300
           AssertionError);
    [lia | repeat constructor; lia | vm_compute; reflexivity].
Defined.

(** X15: for a rotation period of at least 1, the frames saved by
    [show_steps] during the first [n] days are numbered 0, 1, 2, ... without
    gap or repetition, one for each rotation window begun; without
    [show_steps] no frame is saved. *)
Theorem frames_are_consecutive (K : Z) (n : nat) :
  1 <= K ->
  frames K true n =
    Z.of_nat <$> seq 0 (Z.to_nat ((Z.of_nat n + K - 1) / K)) /\
  frames K false n = [].
Proof.
  intros HK. split.
  - induction n as [|n IH].
    + simpl Z.of_nat. rewrite Z.div_small by lia. reflexivity.
    + rewrite frames_S, IH. unfold frame_of_day. rewrite andb_true_r.
      destruct (windows_begun_step K (Z.of_nat n) HK ltac:(lia)) as [H0 H1].
      replace (Z.of_nat (S n)) with (Z.of_nat n + 1) by lia.
      destruct (Z.eqb_spec (Z.of_nat n mod K) 0) as [E|E].
      * destruct (H0 E) as [Ea Eb]. rewrite Ea, Eb.
        assert (Hq : 0 <= Z.of_nat n / K) by (apply Z.div_pos; lia).
        replace (Z.to_nat (Z.of_nat n / K + 1))
          with (S (Z.to_nat (Z.of_nat n / K))) by lia.
        rewrite seq_S, fmap_app. simpl. rewrite Z2Nat.id by exact Hq.
        reflexivity.
      * rewrite (H1 E), app_nil_r. reflexivity.
  - induction n as [|n IH]; [reflexivity|].
    rewrite frames_S, IH. unfold frame_of_day. rewrite andb_false_r.
    reflexivity.
Qed.

Lemma frames_are_consecutive_witness :
  frames 3 true 7 = Z.of_nat <$> seq 0 (Z.to_nat ((Z.of_nat 7 + 3 - 1) / 3)) /\
  frames 3 false 7 = [].
Proof. apply (frames_are_consecutive 3 7). lia. Defined.
